(** * The message dispatcher and the upload handler of app/app.js

    A shallow embedding of [socket.onmessage], [generateClientId],
    [uploadBtn.onclick], [updateDetectionUI] and [addDetectionResult],
    with the string built-ins they call ([startsWith], [split], [slice],
    [join], [substr], [parseFloat], [parseInt]).

    A JavaScript string is a sequence of code units; it is modelled as a
    [string], one [ascii] per code unit.  Every separator and prefix the
    program looks for is made of ASCII characters, and the built-ins compare
    code units one by one. *)

From Stdlib Require Import String Ascii List Bool Arith Lia.
Import ListNotations.
Local Open Scope list_scope.
Local Open Scope string_scope.

(** ** String built-ins *)

Module Js.

(** [s.startsWith(p)] *)
Definition startsWith (s p : string) : bool := String.prefix p s.

(** The fields of [String c s'] once the fields of [s'] are known and no
    separator starts at [c]: [c] goes in front of the first field. *)
Definition push_front (c : ascii) (fields : list string) : list string :=
  match fields with
  | f :: fs => String c f :: fs
  | [] => [String c ""]
  end.

(** [split_from sep skip s]: the fields of [s], whose first [skip] code units
    are the tail of a separator that has just been matched. The scan goes left
    to right; a separator found at the current position closes the current
    field and is stepped over as a whole, so matches never overlap. *)
Fixpoint split_from (sep : string) (skip : nat) (s : string) : list string :=
  match s with
  | "" => [""]
  | String c s' =>
      match skip with
      | S k => split_from sep k s'
      | O =>
          if String.prefix sep s
          then "" :: split_from sep (String.length sep - 1) s'
          else push_front c (split_from sep 0 s')
      end
  end.

(** The code units of [s], each as a string of its own. *)
Fixpoint code_units (s : string) : list string :=
  match s with
  | "" => []
  | String c s' => String c "" :: code_units s'
  end.

(** [s.split(sep)] for a string separator and no limit. *)
Definition split (s sep : string) : list string :=
  match sep with
  | "" => code_units s
  | _ => split_from sep 0 s
  end.

(** [parts.join(sep)] *)
Definition join (parts : list string) (sep : string) : string :=
  String.concat sep parts.

(** [parts.slice(n)] for [0 <= n] *)
Definition slice {A} (parts : list A) (n : nat) : list A := skipn n parts.

(** [s.substr(start, len)] for [0 <= start] and [0 <= len]: at most [len]
    code units from index [start] on, fewer when [s] ends before. *)
Definition substr (s : string) (start len : nat) : string :=
  String.substring start (Nat.min len (String.length s - start)) s.

End Js.

(** ** Numbers read from text *)

(** The result of [parseFloat] and [parseInt]. A Number other than [NaN] is
    kept as the numeral it was read from, that is the longest prefix of the
    trimmed input the built-in accepts; its IEEE value is not computed, since
    the program only prints it. *)
Inductive number :=
  | NaN
  | Numeral (text : string).

Module Num.

(** White space and line terminators among the code units below 256:
    TAB, LF, VT, FF, CR, SP and NBSP. *)
Definition is_white_space (c : ascii) : bool :=
  let n := nat_of_ascii c in
  (((9 <=? n) && (n <=? 13)) || (n =? 32) || (n =? 160))%nat.

Definition is_decimal_digit (c : ascii) : bool :=
  let n := nat_of_ascii c in ((48 <=? n) && (n <=? 57))%nat.

Definition is_hex_digit (c : ascii) : bool :=
  let n := nat_of_ascii c in
  (is_decimal_digit c || ((65 <=? n) && (n <=? 70)) || ((97 <=? n) && (n <=? 102)))%nat.

Fixpoint trim_start (s : string) : string :=
  match s with
  | String c s' => if is_white_space c then trim_start s' else s
  | "" => ""
  end.

(** The longest prefix of [s] made of code units satisfying [p], and the rest. *)
Fixpoint span (p : ascii -> bool) (s : string) : string * string :=
  match s with
  | String c s' =>
      if p c then let (a, b) := span p s' in (String c a, b)
      else ("", s)
  | "" => ("", "")
  end.

(** [s] without its first code unit. *)
Definition behead (s : string) : string :=
  match s with
  | String _ r => r
  | "" => ""
  end.

(** An optional leading [+] or [-], and the rest. *)
Definition sign_of (s : string) : string * string :=
  match s with
  | String c r =>
      if (c =? "+")%char || (c =? "-")%char then (String c "", r)
      else ("", s)
  | "" => ("", "")
  end.

(** The ExponentPart [s] starts with, or nothing: [e] or [E], an optional
    sign and at least one digit. *)
Definition exponent_part (s : string) : string :=
  match s with
  | String e r =>
      if (e =? "e")%char || (e =? "E")%char then
        let (sg, r1) := sign_of r in
        let (ds, _) := span is_decimal_digit r1 in
        match ds with
        | "" => ""
        | _ => String e (sg ++ ds)
        end
      else ""
  | "" => ""
  end.

(** The longest prefix of [s] that is a StrUnsignedDecimalLiteral:
    [Infinity], digits with an optional fraction, or a dot and digits, each
    of the last two with an optional exponent. *)
Definition unsigned_decimal_literal (s : string) : option string :=
  if String.prefix "Infinity" s then Some "Infinity"
  else
    let (int, r1) := span is_decimal_digit s in
    if String.prefix "." r1 then
      let (frac, r2) := span is_decimal_digit (behead r1) in
      match int, frac with
      | "", "" => None
      | _, _ => Some (int ++ "." ++ frac ++ exponent_part r2)
      end
    else
      match int with
      | "" => None
      | _ => Some (int ++ exponent_part r1)
      end.

(** [s] begins with a numeral: [Infinity], a digit, or a dot and a digit. *)
Definition begins_numeral (s : string) : bool :=
  String.prefix "Infinity" s ||
  match s with
  | String c r =>
      is_decimal_digit c ||
      ((c =? ".")%char &&
       match r with
       | String d _ => is_decimal_digit d
       | "" => false
       end)
  | "" => false
  end.

(** [parseFloat(s)] *)
Definition parseFloat (s : string) : number :=
  let (sg, r) := sign_of (trim_start s) in
  match unsigned_decimal_literal r with
  | Some lit => Numeral (sg ++ lit)
  | None => NaN
  end.

(** [parseInt(s)] with no radix: decimal, or hexadecimal after [0x] or [0X]. *)
Definition parseInt (s : string) : number :=
  let (sg, r) := sign_of (trim_start s) in
  let hex := String.prefix "0x" r || String.prefix "0X" r in
  let body := if hex then behead (behead r) else r in
  let (ds, _) := span (if hex then is_hex_digit else is_decimal_digit) body in
  match ds with
  | "" => NaN
  | _ => Numeral (sg ++ (if hex then String.substring 0 2 r else "") ++ ds)
  end.

End Num.

(** ** Values, the page and the console *)

(** A file chosen in [fileInput]. *)
Record file := { file_name : string; file_size : nat }.

(** What is thrown inside the [try] block of the upload handler. *)
Inductive error :=
  | Error (message : string)   (* [new Error(message)], or a rejection carrying it *)
  | TypeError.                 (* reading [.join] of a missing [supported_types] *)

(** The object [response.json()] resolves to, as far as the handler reads
    it: [result.error] when it is a string, and [result.supported_types]
    when it is an array of strings. *)
Record reply := {
  reply_error : option string;
  reply_supported_types : option (list string)
}.

(** The values handed to [console.log], [alert] and [FormData.append]. *)
#[warnings="-register-all"]
Inductive jsval :=
  | VNull
  | VBool (b : bool)
  | VStr (s : string)
  | VNum (n : number)
  | VInt (n : nat)                            (* [file.size], [response.status] *)
  | VObj (fields : list (string * jsval))     (* an object literal *)
  | VFile (f : file)
  | VReply (r : reply)
  | VJson (r : reply)                         (* [JSON.stringify(result)] *)
  | VErr (e : error)
  | VMessage (e : error).                     (* [error.message] *)

(** A string built by a template literal or by [+]: its pieces in order. *)
Definition text := list jsval.

(** The value of a variable that holds a string or [null]. *)
Definition VId (id : option string) : jsval :=
  match id with
  | Some s => VStr s
  | None => VNull
  end.

(** One call on the console. [Stamped type message] is the line [addLog]
    prints, [[time] type: message]; the time of day it starts with comes
    from the wall clock and is left out. *)
Inductive line :=
  | Log (args : list jsval)
  | LogError (args : list jsval)
  | Stamped (type : string) (message : text).

(** A child of [resultsList]. [innerHTML] is the markup assigned to it. *)
Record li := { className : string; innerHTML : string }.

Record button := { disabled : bool; textContent : string }.

(** The two globals of the script, the two page elements it changes, and
    what it has sent out: console lines, alerts and upload requests (the
    [FormData] of each [fetch]). Lists grow at the end. *)
Record state := {
  myId : option string;
  currentClientId : option string;
  resultsList : list li;
  uploadBtn : button;
  console : list line;
  alerts : list text;
  requests : list (list (string * jsval))
}.

Definition set_myId (v : option string) (st : state) : state :=
  {| myId := v; currentClientId := currentClientId st;
     resultsList := resultsList st; uploadBtn := uploadBtn st;
     console := console st; alerts := alerts st; requests := requests st |}.

Definition set_currentClientId (v : option string) (st : state) : state :=
  {| myId := myId st; currentClientId := v;
     resultsList := resultsList st; uploadBtn := uploadBtn st;
     console := console st; alerts := alerts st; requests := requests st |}.

Definition set_resultsList (v : list li) (st : state) : state :=
  {| myId := myId st; currentClientId := currentClientId st;
     resultsList := v; uploadBtn := uploadBtn st;
     console := console st; alerts := alerts st; requests := requests st |}.

Definition set_uploadBtn (v : button) (st : state) : state :=
  {| myId := myId st; currentClientId := currentClientId st;
     resultsList := resultsList st; uploadBtn := v;
     console := console st; alerts := alerts st; requests := requests st |}.

Definition set_console (v : list line) (st : state) : state :=
  {| myId := myId st; currentClientId := currentClientId st;
     resultsList := resultsList st; uploadBtn := uploadBtn st;
     console := v; alerts := alerts st; requests := requests st |}.

Definition set_alerts (v : list text) (st : state) : state :=
  {| myId := myId st; currentClientId := currentClientId st;
     resultsList := resultsList st; uploadBtn := uploadBtn st;
     console := console st; alerts := v; requests := requests st |}.

Definition set_requests (v : list (list (string * jsval))) (st : state) : state :=
  {| myId := myId st; currentClientId := currentClientId st;
     resultsList := resultsList st; uploadBtn := uploadBtn st;
     console := console st; alerts := alerts st; requests := v |}.

(** [console.log(...args)] and [console.error(...args)] *)
Definition console_log (args : list jsval) (st : state) : state :=
  set_console (console st ++ [Log args])%list st.

Definition console_error (args : list jsval) (st : state) : state :=
  set_console (console st ++ [LogError args])%list st.

(** [addLog(type, message)] *)
Definition addLog (type : string) (message : text) (st : state) : state :=
  set_console (console st ++ [Stamped type message])%list st.

(** [alert(message)] *)
Definition alert (message : text) (st : state) : state :=
  set_alerts (alerts st ++ [message])%list st.

(** [resultsList.appendChild(el)] *)
Definition appendChild (el : li) (st : state) : state :=
  set_resultsList (resultsList st ++ [el])%list st.

(** [uploadBtn.disabled = b] and [uploadBtn.textContent = s] *)
Definition set_disabled (b : bool) (st : state) : state :=
  set_uploadBtn {| disabled := b; textContent := textContent (uploadBtn st) |} st.

Definition set_textContent (s : string) (st : state) : state :=
  set_uploadBtn {| disabled := disabled (uploadBtn st); textContent := s |} st.

(** ** The socket handlers *)

(** [updateDetectionUI(clientId, status, confidence, message)]: compares the
    event's client id with [currentClientId] by [!==] and logs the outcome. *)
Definition updateDetectionUI (clientId status : string) (confidence : number)
    (message : string) (st : state) : state :=
  let st := console_log [VStr " updateDetectionUI called:";
                         VObj [("clientId", VStr clientId);
                               ("currentClientId", VId (currentClientId st));
                               ("status", VStr status);
                               ("message", VStr message)]] st in
  let st := addLog "UI_FUNCTION" [VStr "updateDetectionUI: "; VStr clientId;
                                  VStr " vs "; VId (currentClientId st)] st in
  if match currentClientId st with
     | Some current => negb (clientId =? current)
     | None => true
     end
  then
    let st := console_log [VStr "Client ID mismatch - skipping updateDetectionUI"] st in
    addLog "UI_FUNCTION" [VStr "Client ID mismatch - skipping updateDetectionUI"] st
  else
    let st := console_log [VStr "Client ID matches - processing updateDetectionUI"] st in
    addLog "UI_FUNCTION" [VStr "Client ID matches - processing updateDetectionUI"] st.

(** [addDetectionResult(clientId, status, confidence, message)]: appends an
    [li] of class [result-item] holding [message]. Scrolling it into view
    moves the viewport only and is not modelled. *)
Definition addDetectionResult (clientId status : string) (confidence : number)
    (message : string) (st : state) : state :=
  let st := console_log [VStr " addDetectionResult called:";
                         VObj [("clientId", VStr clientId);
                               ("status", VStr status);
                               ("confidence", VNum confidence);
                               ("message", VStr message)]] st in
  let st := addLog "UI_FUNCTION" [VStr "addDetectionResult: "; VStr message] st in
  let el := {| className := "result-item"; innerHTML := message |} in
  let st := appendChild el st in
  let st := console_log [VStr " Detection result added to UI:"; VStr message] st in
  addLog "UI_UPDATE" [VStr "Detection result displayed: "; VStr message] st.

(** [socket.onmessage({ data })]. [parts[i]] is read only below
    [parts.length], so the default of [nth] is never returned. *)
Definition onmessage (data : string) (st : state) : state :=
  let st := console_log [VStr "WebSocket message received:"; VStr data] st in
  let st := addLog "WEBSOCKET" [VStr "Received: "; VStr data] st in
  if Js.startsWith data "Your ID: " then
    let st := set_myId (nth_error (Js.split data ": ") 1) st in
    let st := console_log [VStr "Connected with WebSocket ID:"; VId (myId st)] st in
    addLog "CONNECTION" [VStr "WebSocket connected with ID: "; VId (myId st)] st
  else if Js.startsWith data "DETECTION:" then
    let st := console_log [VStr "Processing DETECTION message"] st in
    let st := addLog "DETECTION" [VStr "Processing detection message"] st in
    let parts := Js.split data ":" in
    if (5 <=? List.length parts)%nat then
      let clientId := nth 1 parts "" in
      let status := nth 2 parts "" in
      let confidence := Num.parseFloat (nth 3 parts "") in
      let message := Js.join (Js.slice parts 4) ":" in
      let st := console_log [VStr "Detection data:";
                             VObj [("clientId", VStr clientId);
                                   ("status", VStr status);
                                   ("confidence", VNum confidence);
                                   ("message", VStr message);
                                   ("currentClientId", VId (currentClientId st))]] st in
      let st := addLog "DETECTION" [VStr "Client: "; VStr clientId;
                                    VStr ", Status: "; VStr status;
                                    VStr ", Message: "; VStr message] st in
      let st := updateDetectionUI clientId status confidence message st in
      addDetectionResult clientId status confidence message st
    else st
  else if Js.startsWith data "PAGE_COUNT:" then
    let st := console_log [VStr "Processing PAGE_COUNT message"] st in
    let st := addLog "PAGE_COUNT" [VStr "Processing page count message"] st in
    let parts := Js.split data ":" in
    if (3 <=? List.length parts)%nat then
      let clientId := nth 1 parts "" in
      let pages := Num.parseInt (nth 2 parts "") in
      let st := console_log [VStr "Page count data:";
                             VObj [("clientId", VStr clientId);
                                   ("pages", VNum pages);
                                   ("currentClientId", VId (currentClientId st))]] st in
      addLog "PAGE_COUNT" [VStr "Client: "; VStr clientId;
                           VStr ", Pages: "; VNum pages] st
    else st
  else if Js.startsWith data "PAGE_RESULT:" then
    let st := console_log [VStr "Processing PAGE_RESULT message"] st in
    let st := addLog "PAGE_RESULT" [VStr "Processing page result message"] st in
    let parts := Js.split data ":" in
    if (7 <=? List.length parts)%nat then
      let clientId := nth 1 parts "" in
      let pageNum := Num.parseInt (nth 2 parts "") in
      let orientation := nth 3 parts "" in
      let aspectRatio := Num.parseFloat (nth 4 parts "") in
      let width := Num.parseInt (nth 5 parts "") in
      let height := Num.parseInt (nth 6 parts "") in
      let st := console_log [VStr "Page result data:";
                             VObj [("clientId", VStr clientId);
                                   ("pageNum", VNum pageNum);
                                   ("orientation", VStr orientation);
                                   ("aspectRatio", VNum aspectRatio);
                                   ("width", VNum width);
                                   ("height", VNum height)]] st in
      addLog "PAGE_RESULT" [VStr "Page "; VNum pageNum; VStr ": "; VStr orientation;
                            VStr " ("; VNum width; VStr "x"; VNum height; VStr ")"] st
    else st
  else
    let st := console_log [VStr "Unknown message type:"; VStr data] st in
    let st := addLog "UNKNOWN" [VStr "Unknown message: "; VStr data] st in
    let el := {| className := ""; innerHTML := data |} in
    appendChild el st.

(** [socket.onopen()], [socket.onerror(error)] with [error.message] when the
    event has one, and [socket.onclose(event)]. An empty string is falsy, so
    [||] replaces it by its right-hand side. *)
Definition onopen (st : state) : state :=
  let st := console_log [VStr "WebSocket connection opened"] st in
  addLog "CONNECTION" [VStr "WebSocket connection opened"] st.

Definition or_else (s : option string) (default : string) : string :=
  match s with
  | Some (String _ _ as v) => v
  | _ => default
  end.

Definition onerror (message : option string) (st : state) : state :=
  let st := console_error [VStr "WebSocket error:"; VObj [("message", VId message)]] st in
  addLog "ERROR" [VStr "WebSocket error: "; VStr (or_else message "Unknown error")] st.

Definition onclose (code : nat) (reason : string) (st : state) : state :=
  let st := console_log [VStr " WebSocket connection closed:"; VInt code; VStr reason] st in
  addLog "CONNECTION" [VStr "WebSocket closed ("; VInt code; VStr "): ";
                       VStr (or_else (Some reason) "No reason given")] st.

(** ** The client id *)

(** A digit of a radix-36 numeral. *)
Record digit36 := {
  digit_value : nat;
  digit_below_36 : (digit_value <? 36)%nat = true
}.

(** [0] to [9], then [a] to [z]. *)
Definition digit_char (d : digit36) : ascii :=
  if (digit_value d <? 10)%nat
  then ascii_of_nat (48 + digit_value d)
  else ascii_of_nat (87 + digit_value d).

(** A value of [Math.random()], a Number [x] with [0 <= x < 1], given by the
    numeral [x.toString(36)] prints: [0] itself, or [0.] and one fractional
    digit or more. *)
Inductive random :=
  | Zero
  | Fraction (d : digit36) (ds : list digit36).

(** [x.toString(36)] *)
Definition toString36 (x : random) : string :=
  match x with
  | Zero => "0"
  | Fraction d ds => "0." ++ string_of_list_ascii (map digit_char (d :: ds))
  end.

(** [generateClientId()], [x] being what [Math.random()] returns. *)
Definition generateClientId (x : random) : string :=
  "client_" ++ Js.substr (toString36 x) 2 8.

(** ** The upload handler *)

(** How [fetch] settles: rejected, or resolved with a response of the given
    status; [response.ok] holds for the statuses 200 to 299. *)
Inductive fetch_outcome :=
  | FetchRejects (e : error)
  | FetchResolves (status : nat).

Definition ok (status : nat) : bool :=
  ((200 <=? status) && (status <=? 299))%nat.

(** How [response.json()] settles: rejected, resolved with [null] (reading
    [.error] of it throws), or resolved with something [.error] can be read
    from. *)
Inductive json_outcome :=
  | JsonRejects (e : error)
  | JsonNull
  | JsonResolves (result : reply).

(** The handler between two [await]s: what it waits for, and the [clientId]
    it holds in its closure. *)
Inductive suspended :=
  | AwaitFetch (clientId : string)
  | AwaitJson (clientId : string).

Definition quote : string := String (ascii_of_nat 34) "".
Definition newline : string := String (ascii_of_nat 10) "".

(** A non-empty string is truthy; [undefined] and the empty string are not. *)
Definition truthy (s : option string) : bool :=
  match s with
  | Some (String _ _) => true
  | _ => false
  end.

(** The [catch (error)] block. *)
Definition on_catch (e : error) (st : state) : state :=
  let st := console_error [VStr "Upload error:"; VErr e] st in
  let st := addLog "ERROR" [VStr "Upload failed: "; VMessage e] st in
  let st := alert [VStr "Error uploading file: "; VMessage e] st in
  let st := set_textContent "Upload & Analyze" st in
  set_disabled false st.

(** [uploadBtn.onclick()] up to [await fetch(...)]. [selected] is
    [fileInput.files[0]] and [x] what [Math.random()] returns when called. *)
Definition onclick (selected : option file) (x : random) (st : state)
    : state * option suspended :=
  let st := console_log [VStr "Upload button clicked"] st in
  let st := addLog "UI" [VStr "Upload button clicked"] st in
  match selected with
  | None =>
      let st := console_log [VStr "No file selected"] st in
      let st := addLog "UI" [VStr "No file selected - showing alert"] st in
      let st := alert [VStr "Please select a file first"] st in
      (st, None)
  | Some f =>
      let clientId := generateClientId x in
      let st := console_log [VStr "Generated client ID:"; VStr clientId] st in
      let st := addLog "CLIENT" [VStr "Generated client ID: "; VStr clientId] st in
      let formData := [("file", VFile f); ("client_id", VStr clientId)] in
      let st := console_log [VStr "Starting file upload:"; VStr (file_name f);
                             VInt (file_size f); VStr "bytes"] st in
      let st := addLog "UPLOAD" [VStr "Starting upload: "; VStr (file_name f);
                                 VStr " ("; VInt (file_size f); VStr " bytes)"] st in
      let st := set_disabled true st in
      let st := set_textContent "Uploading..." st in
      let st := addLog "UI" [VStr ("Upload button disabled, text changed to "
                                   ++ quote ++ "Uploading..." ++ quote)] st in
      let st := set_requests (requests st ++ [formData])%list st in
      (st, Some (AwaitFetch clientId))
  end.

(** From the settling of [fetch] up to [await response.json()]. *)
Definition resume_fetch (clientId : string) (o : fetch_outcome) (st : state)
    : state * option suspended :=
  match o with
  | FetchRejects e => (on_catch e st, None)
  | FetchResolves status =>
      let st := console_log [VStr " Upload response status:"; VInt status] st in
      let st := addLog "UPLOAD" [VStr "Upload response status: "; VInt status] st in
      if negb (ok status) then (on_catch (Error "Upload failed") st, None)
      else (st, Some (AwaitJson clientId))
  end.

(** From the settling of [response.json()] to the end of the handler. *)
Definition resume_json (clientId : string) (o : json_outcome) (st : state) : state :=
  match o with
  | JsonRejects e => on_catch e st
  | JsonNull =>
      let st := console_log [VStr "Upload result:"; VNull] st in
      let st := addLog "UPLOAD" [VStr "Upload result: "; VStr "null"] st in
      on_catch TypeError st
  | JsonResolves result =>
      let st := console_log [VStr "Upload result:"; VReply result] st in
      let st := addLog "UPLOAD" [VStr "Upload result: "; VJson result] st in
      if truthy (reply_error result) then
        let st := console_log [VStr " Upload error:"; VId (reply_error result)] st in
        let st := addLog "ERROR" [VStr "Upload error: "; VId (reply_error result)] st in
        match reply_supported_types result with
        | None => on_catch TypeError st
        | Some types =>
            let st := alert [VStr "Error: "; VId (reply_error result);
                             VStr (newline ++ "Supported types: ");
                             VStr (Js.join types ", ")] st in
            let st := set_textContent "Upload & Analyze" st in
            set_disabled false st
        end
      else
        let st := set_currentClientId (Some clientId) st in
        let st := console_log [VStr " Set current client ID:"; VId (currentClientId st)] st in
        let st := addLog "CLIENT" [VStr "Set current client ID: "; VId (currentClientId st)] st in
        let st := set_resultsList [] st in
        let st := addLog "UI" [VStr "Cleared results list"] st in
        let st := set_textContent "Upload & Analyze" st in
        let st := set_disabled false st in
        let st := addLog "UI" [VStr "Upload button re-enabled"] st in
        let st := console_log [VStr " Upload completed successfully, waiting for WebSocket messages..."] st in
        addLog "UPLOAD" [VStr "Upload completed successfully, awaiting processing messages"] st
  end.

(** ** The page as a whole *)

(** The page between two tasks: its state and the upload handler waiting on
    an [await], if any. *)
Record page := { dom : state; pending : option suspended }.

(** What the browser can run next. *)
Inductive event :=
  | Message (data : string)
  | Open
  | SocketError (message : option string)
  | Close (code : nat) (reason : string)
  | Click (selected : option file) (x : random)
  | Fetched (o : fetch_outcome)
  | Parsed (o : json_outcome).

(** One task. A disabled button receives no click, and a promise settles
    only for the handler waiting on it; [None] says the event cannot happen
    on this page. *)
Definition step (p : page) (e : event) : option page :=
  let st := dom p in
  match e, pending p with
  | Message data, w => Some {| dom := onmessage data st; pending := w |}
  | Open, w => Some {| dom := onopen st; pending := w |}
  | SocketError m, w => Some {| dom := onerror m st; pending := w |}
  | Close code reason, w => Some {| dom := onclose code reason st; pending := w |}
  | Click selected x, None =>
      if disabled (uploadBtn st) then None
      else let (st', w) := onclick selected x st in Some {| dom := st'; pending := w |}
  | Fetched o, Some (AwaitFetch clientId) =>
      let (st', w) := resume_fetch clientId o st in Some {| dom := st'; pending := w |}
  | Parsed o, Some (AwaitJson clientId) =>
      Some {| dom := resume_json clientId o st; pending := None |}
  | _, _ => None
  end.

(** A sequence of tasks, in order. *)
Fixpoint run (p : page) (es : list event) : option page :=
  match es with
  | [] => Some p
  | e :: es' =>
      match step p e with
      | Some p' => run p' es'
      | None => None
      end
  end.

(** ** What the specification calls substrings

    The phrases the specification describes results with, written
    independently of [Js.split] and [Js.substr], by a scan of their own or
    with the library's [index] and [substring]; the theorems below compare
    them with what the code computes. *)

Module Spec.

(** The substring of [s] that follows its [n]-th occurrence of the
    character [c]; none when [s] has fewer occurrences. *)
Fixpoint substring_after_nth (c : ascii) (n : nat) (s : string) {struct s}
    : option string :=
  match n with
  | O => Some s
  | S k =>
      match s with
      | "" => None
      | String a s' =>
          if (a =? c)%char then substring_after_nth c k s'
          else substring_after_nth c n s'
      end
  end.

(** The substring of [s] that follows the first occurrence of [sep]. *)
Definition after_first (sep s : string) : option string :=
  match String.index 0 sep s with
  | Some i =>
      let from := i + String.length sep in
      Some (String.substring from (String.length s - from) s)
  | None => None
  end.

(** The part of [s] before its first occurrence of [sep]; all of [s] when
    [sep] does not occur. *)
Definition before_first (sep s : string) : string :=
  match String.index 0 sep s with
  | Some i => String.substring 0 i s
  | None => s
  end.

(** A digit or a lower-case letter. *)
Definition is_base36 (c : ascii) : bool :=
  let n := nat_of_ascii c in
  (((48 <=? n) && (n <=? 57)) || ((97 <=? n) && (n <=? 122)))%nat.

Fixpoint all_base36 (s : string) : bool :=
  match s with
  | "" => true
  | String c s' => is_base36 c && all_base36 s'
  end.

End Spec.

(** The page once the script has run, before any event: both globals are
    [null] and three lines are on the console. The document has the three
    elements the script looks up; the children of [resultsList] and the
    button are those it gives them. *)
Definition loaded (items : list li) (btn : button) : state :=
  {| myId := None; currentClientId := None;
     resultsList := items; uploadBtn := btn;
     console := [Log [VStr "Frontend JavaScript loading..."];
                 Log [VStr "Initializing WebSocket connection to ws://localhost:8081/ws"];
                 Log [VStr "DOM elements loaded:";
                      VObj [("fileInput", VBool true); ("uploadBtn", VBool true);
                            ("resultsList", VBool true)]]];
     alerts := []; requests := [] |}.

(** ** The text of an entry *)

(** Assigning to [innerHTML] hands the string to the HTML parser, and what
    the entry then shows is the text of the nodes the parser builds, not the
    string. [Dom.textContent s] is that text, [el.textContent] after
    [el.innerHTML = s], for the markup described here and [None] for the
    rest: a start or end tag of one of the formatting elements [b], [i],
    [em], [strong] and [u], in lower case and with no attribute, adds no
    text; [<] not followed by a letter, [!], [/] or [?] and [&] not followed
    by a letter, a digit or [#] are text as they are; so is every other code
    unit but NUL and carriage return. Character references, other tags,
    comments, NUL and carriage return are not modelled. *)
Module Dom.

Definition formatting : list string := ["b"; "i"; "em"; "strong"; "u"].

Definition is_letter (c : ascii) : bool :=
  let n := nat_of_ascii c in
  (((65 <=? n) && (n <=? 90)) || ((97 <=? n) && (n <=? 122)))%nat.

(** After [<]: the length of [name>] or [/name>] when [r] begins with the
    start or the end tag of one of [names]. *)
Fixpoint tag_length (names : list string) (r : string) : option nat :=
  match names with
  | [] => None
  | name :: rest =>
      if String.prefix (name ++ ">") r then Some (String.length name + 1)
      else if String.prefix ("/" ++ name ++ ">") r then Some (String.length name + 2)
      else tag_length rest r
  end.

(** After [<]: what follows makes a tag, a comment or a declaration. *)
Definition opens_markup (r : string) : bool :=
  match r with
  | String c _ =>
      is_letter c || (c =? "!")%char || (c =? "/")%char || (c =? "?")%char
  | "" => false
  end.

(** After [&]: what follows makes a character reference. *)
Definition opens_reference (r : string) : bool :=
  match r with
  | String c _ => is_letter c || Num.is_decimal_digit c || (c =? "#")%char
  | "" => false
  end.

(** The text of [s], whose first [skip] code units are the rest of a tag
    that has just been recognised. *)
Fixpoint text_from (skip : nat) (s : string) : option string :=
  match s with
  | "" => Some ""
  | String c r =>
      match skip with
      | S k => text_from k r
      | O =>
          if (c =? "<")%char then
            match tag_length formatting r with
            | Some n => text_from n r
            | None =>
                if opens_markup r then None
                else option_map (String c) (text_from 0 r)
            end
          else if (c =? "&")%char then
            if opens_reference r then None
            else option_map (String c) (text_from 0 r)
          else if ((nat_of_ascii c =? 0) || (nat_of_ascii c =? 13))%nat then None
          else option_map (String c) (text_from 0 r)
      end
  end.

Definition textContent (s : string) : option string := text_from 0 s.

(** [s] has no [<], no [&], no NUL and no carriage return. *)
Fixpoint plain (s : string) : bool :=
  match s with
  | "" => true
  | String c r =>
      negb (c =? "<")%char && negb (c =? "&")%char &&
      negb (nat_of_ascii c =? 0)%nat && negb (nat_of_ascii c =? 13)%nat &&
      plain r
  end.

End Dom.

(** The text an entry of the list shows. *)
Definition text_of (el : li) : option string := Dom.textContent (innerHTML el).

(** ** Sample values *)

Module Example.

(** The button as the handler leaves it when it ends. *)
Definition ready : button :=
  {| disabled := false; textContent := "Upload & Analyze" |}.

Definition d36 (v : nat) (H : (v <? 36)%nat = true) : digit36 :=
  {| digit_value := v; digit_below_36 := H |}.

(** One half, [0.i] in radix 36. *)
Definition half : random := Fraction (d36 18 eq_refl) [].

(** A Number printed [0.4fzyo82mvyr]. *)
Definition x : random :=
  Fraction (d36 4 eq_refl)
    [d36 15 eq_refl; d36 35 eq_refl; d36 34 eq_refl; d36 24 eq_refl;
     d36 8 eq_refl; d36 2 eq_refl; d36 22 eq_refl; d36 31 eq_refl;
     d36 34 eq_refl; d36 27 eq_refl].

Definition report : file := {| file_name := "report.pdf"; file_size := 1024 |}.

(** A page whose last successful upload had the id [abc123]. *)
Definition st : state := set_currentClientId (Some "abc123") (loaded [] ready).

Definition idle : page := {| dom := st; pending := None |}.

(** A reply that accepts the file, and one that refuses it. *)
Definition accepted : reply :=
  {| reply_error := None; reply_supported_types := None |}.

Definition refused : reply :=
  {| reply_error := Some "Unsupported file type";
     reply_supported_types := Some ["pdf"; "png"] |}.

End Example.

(** ** Frames *)

(** [st'] is [st] with lines added at the end of the console and nothing
    else changed: the two globals, the list, the button, the alerts and the
    requests are those of [st]. *)
Definition only_logs (st st' : state) : Prop :=
  exists lines, st' = set_console (console st ++ lines)%list st.

(** The events of the socket, as opposed to those of the upload handler. *)
Definition socket_event (e : event) : bool :=
  match e with
  | Message _ | Open | SocketError _ | Close _ _ => true
  | Click _ _ | Fetched _ | Parsed _ => false
  end.

(** While the handler waits on an [await], the button is disabled. *)
Definition waiting_disables (p : page) : Prop :=
  pending p <> None -> disabled (uploadBtn (dom p)) = true.

(** The number of fractional digits [x.toString(36)] prints. *)
Definition fraction_digits (x : random) : nat :=
  match x with
  | Zero => 0
  | Fraction _ ds => S (List.length ds)
  end.

(** ** Counting characters *)

(** [s] has no code unit [c]. *)
Fixpoint has_no (c : ascii) (s : string) : bool :=
  match s with
  | "" => true
  | String a s' => negb (a =? c)%char && has_no c s'
  end.

(** The number of code units [c] in [s]. *)
Fixpoint count (c : ascii) (s : string) : nat :=
  match s with
  | "" => 0
  | String a s' => (if (a =? c)%char then 1 else 0) + count c s'
  end.

(** While the handler waits, the button is disabled and says so. *)
Definition uploading : button :=
  {| disabled := true; textContent := "Uploading..." |}.

Definition waiting_shows_uploading (p : page) : Prop :=
  pending p <> None -> uploadBtn (dom p) = uploading.

(** The values of the first fractional digits of the numeral of [x], 8 of
    them at most. *)
Definition leading (x : random) : list nat :=
  match x with
  | Zero => []
  | Fraction d ds => firstn 8 (map digit_value (d :: ds))
  end.

(** * Properties *)

(** ** Strings *)

Section Strings.

Lemma prefix_split (p s : string) :
  String.prefix p s = true -> exists r, s = p ++ r.
Proof.
  revert s; induction p as [|a p IH]; intros s H.
  - now exists s.
  - destruct s as [|b s]; simpl in H; [discriminate|].
    destruct (ascii_dec a b) as [->|]; [|discriminate].
    destruct (IH _ H) as [r ->]. now exists r.
Qed.

Lemma prefix_empty (s : string) : String.prefix "" s = true.
Proof. now destruct s. Qed.

Lemma split_from_not_nil (sep : string) (k : nat) (s : string) :
  Js.split_from sep k s <> [].
Proof.
  revert k; induction s as [|c s IH]; intros k; cbn [Js.split_from];
    [discriminate|].
  destruct k; [|apply IH].
  destruct (String.prefix sep (String c s)); [discriminate|].
  unfold Js.push_front. now destruct (Js.split_from sep 0 s).
Qed.

Lemma length_push_front (c : ascii) (l : list string) :
  l <> [] -> List.length (Js.push_front c l) = List.length l.
Proof. now destruct l. Qed.

Lemma skipn_push_front (c : ascii) (n : nat) (l : list string) :
  l <> [] -> skipn (S n) (Js.push_front c l) = skipn (S n) l.
Proof. now destruct l. Qed.

Lemma join_push_front (c : ascii) (l : list string) (sep : string) :
  l <> [] -> Js.join (Js.push_front c l) sep = String c (Js.join l sep).
Proof.
  destruct l as [|f [|g l]]; [easy| |]; intros _; reflexivity.
Qed.

Lemma join_cons (f : string) (l : list string) (sep : string) :
  l <> [] -> Js.join (f :: l) sep = f ++ sep ++ Js.join l sep.
Proof. now destruct l. Qed.

(** Splitting on a one-character separator, one code unit at a time. *)
Lemma split_char_cons (a c : ascii) (s : string) :
  Js.split (String a s) (String c "") =
  if (a =? c)%char then "" :: Js.split s (String c "")
  else Js.push_front a (Js.split s (String c "")).
Proof.
  unfold Js.split. cbn [Js.split_from String.prefix String.length Nat.sub].
  destruct (ascii_dec c a) as [->|n].
  - now rewrite Ascii.eqb_refl, prefix_empty.
  - destruct (Ascii.eqb_spec a c); [congruence|reflexivity].
Qed.

Lemma split_char_not_nil (s : string) (c : ascii) : Js.split s (String c "") <> [].
Proof. apply split_from_not_nil. Qed.

(** Joining the fields back with the separator restores the string. *)
Lemma join_split_char (s : string) (c : ascii) :
  Js.join (Js.split s (String c "")) (String c "") = s.
Proof.
  induction s as [|a s IH]; [reflexivity|].
  rewrite split_char_cons. destruct (a =? c)%char eqn:E.
  - apply Ascii.eqb_eq in E; subst a.
    rewrite join_cons by apply split_char_not_nil. now rewrite IH.
  - rewrite join_push_front by apply split_char_not_nil. now rewrite IH.
Qed.

(** The fields from the [n]-th on, joined, are what follows the [n]-th
    separator. *)
Lemma join_slice_split_char (c : ascii) (s : string) (n : nat) :
  n < List.length (Js.split s (String c "")) ->
  Spec.substring_after_nth c n s =
  Some (Js.join (Js.slice (Js.split s (String c "")) n) (String c "")).
Proof.
  revert n; induction s as [|a s IH]; intros n Hn.
  - destruct n as [|n]; [reflexivity|]. simpl in Hn. lia.
  - destruct n as [|n].
    + unfold Js.slice. cbn [skipn Spec.substring_after_nth].
      now rewrite join_split_char.
    + rewrite split_char_cons in *. cbn [Spec.substring_after_nth].
      destruct (a =? c)%char.
      * cbn [List.length] in Hn. unfold Js.slice in *. cbn [skipn].
        apply IH. lia.
      * rewrite length_push_front in Hn by apply split_char_not_nil.
        unfold Js.slice. rewrite skipn_push_front by apply split_char_not_nil.
        now apply IH.
Qed.

End Strings.

(** C4. For every [s] that splits on [:] into at least 5 fields, the fields
    from index 4 on, joined with [:], are exactly the substring of [s] after
    its 4th colon, the colons inside it included. *)
Theorem C4_message_round_trip (s : string) :
  5 <= List.length (Js.split s ":") ->
  Spec.substring_after_nth ":" 4 s = Some (Js.join (Js.slice (Js.split s ":") 4) ":").
Proof.
  intros H. apply join_slice_split_char. lia.
Qed.

Lemma C4_message_round_trip_witness :
  5 <= List.length (Js.split "DETECTION:abc123:done:0.97:Looks valid:extra" ":") /\
  Spec.substring_after_nth ":" 4 "DETECTION:abc123:done:0.97:Looks valid:extra"
  = Some "Looks valid:extra".
Proof.
  split; [vm_compute; lia|].
  rewrite (C4_message_round_trip "DETECTION:abc123:done:0.97:Looks valid:extra");
    [reflexivity | vm_compute; lia].
Defined.

(** ** Numbers *)

Section Numbers.

Example split_samples :
  Js.split "DETECTION:abc123:done:0.97:Looks valid:extra" ":"
  = ["DETECTION"; "abc123"; "done"; "0.97"; "Looks valid"; "extra"] /\
  Js.split "Your ID: a: b" ": " = ["Your ID"; "a"; "b"] /\
  Js.split "a:: b: " ": " = ["a:"; "b"; ""] /\
  Js.split "" ":" = [""] /\
  Js.split "::" ":" = [""; ""; ""].
Proof. repeat split. Qed.

Example parseFloat_samples :
  map Num.parseFloat ["0.97"; "  -1.5e3x"; ".5"; "1."; "1e+"; "-Infinity!"; "0x10"]
  = [Numeral "0.97"; Numeral "-1.5e3"; Numeral ".5"; Numeral "1."; Numeral "1";
     Numeral "-Infinity"; Numeral "0"] /\
  map Num.parseFloat ["high"; ""; "."; "-.e1"; "+"; "e5"; "NaN"]
  = [NaN; NaN; NaN; NaN; NaN; NaN; NaN].
Proof. split; reflexivity. Qed.

Example parseInt_samples :
  map Num.parseInt ["12"; "  -12px"; "0x1F"; "-0X1g"; "3.7"; "007"]
  = [Numeral "12"; Numeral "-12"; Numeral "0x1F"; Numeral "-0X1"; Numeral "3";
     Numeral "007"] /\
  map Num.parseInt ["many"; ""; "0x"; "+"; ".5"] = [NaN; NaN; NaN; NaN; NaN].
Proof. split; reflexivity. Qed.

(** [parseFloat] gives [NaN] exactly when, after the white space and an
    optional sign, the text does not begin with a numeral. *)
Lemma unsigned_decimal_literal_none (r : string) :
  Num.unsigned_decimal_literal r = None <-> Num.begins_numeral r = false.
Proof.
  unfold Num.unsigned_decimal_literal, Num.begins_numeral.
  destruct (String.prefix "Infinity" r); [now split|].
  cbn [orb]. destruct r as [|c r]; [now split|].
  cbn [Num.span]. destruct (Num.is_decimal_digit c).
  - destruct (Num.span Num.is_decimal_digit r) as [a b].
    destruct (String.prefix "." b).
    + destruct (Num.span Num.is_decimal_digit (Num.behead b)); now split.
    + now split.
  - cbn [orb String.prefix]. destruct (ascii_dec "." c) as [<-|Hc].
    + rewrite prefix_empty. cbn [Num.behead Ascii.eqb Bool.eqb andb].
      destruct r as [|d r]; [now split|].
      cbn [Num.span]. destruct (Num.is_decimal_digit d); [|now split].
      destruct (Num.span Num.is_decimal_digit r); now split.
    + destruct (Ascii.eqb_spec c "."); [congruence|now split].
Qed.

Lemma parseFloat_NaN (s : string) :
  Num.parseFloat s = NaN <->
  Num.begins_numeral (snd (Num.sign_of (Num.trim_start s))) = false.
Proof.
  unfold Num.parseFloat.
  destruct (Num.sign_of (Num.trim_start s)) as [sg r]. cbn [snd].
  rewrite <- unsigned_decimal_literal_none.
  destruct (Num.unsigned_decimal_literal r); now split.
Qed.

End Numbers.

(** ** Frames of the logging functions *)

Ltac fields :=
  cbv [myId currentClientId resultsList uploadBtn console alerts requests
       set_myId set_currentClientId set_resultsList set_uploadBtn set_console
       set_alerts set_requests console_log console_error addLog alert
       appendChild set_disabled set_textContent disabled textContent
       dom pending] in *.

Section Frames.

Lemma only_logs_refl (st : state) : only_logs st st.
Proof. exists []. destruct st; fields. now rewrite app_nil_r. Qed.

Lemma only_logs_trans (a b c : state) :
  only_logs a b -> only_logs b c -> only_logs a c.
Proof.
  intros [l1 ->] [l2 ->]. exists (l1 ++ l2)%list. fields.
  now rewrite app_assoc.
Qed.

Lemma only_logs_console_log (args : list jsval) (st : state) :
  only_logs st (console_log args st).
Proof. now exists [Log args]. Qed.

Lemma only_logs_console_error (args : list jsval) (st : state) :
  only_logs st (console_error args st).
Proof. now exists [LogError args]. Qed.

Lemma only_logs_addLog (type : string) (message : text) (st : state) :
  only_logs st (addLog type message st).
Proof. now exists [Stamped type message]. Qed.

Lemma only_logs_fields (st st' : state) :
  only_logs st st' ->
  myId st' = myId st /\ currentClientId st' = currentClientId st /\
  resultsList st' = resultsList st /\ uploadBtn st' = uploadBtn st /\
  alerts st' = alerts st /\ requests st' = requests st.
Proof. intros [l ->]. now fields. Qed.

End Frames.

Create HintDb frames.

#[local] Hint Resolve only_logs_refl only_logs_console_log only_logs_console_error
  only_logs_addLog : frames.

Ltac frames := repeat (eapply only_logs_trans; [|solve [eauto with frames]]);
               eauto with frames.

(** ** The dispatcher *)

Section Dispatch.

Lemma updateDetectionUI_only_logs (clientId status : string) (confidence : number)
    (message : string) (st : state) :
  only_logs st (updateDetectionUI clientId status confidence message st).
Proof.
  unfold updateDetectionUI. cbv zeta.
  match goal with |- context [if ?b then _ else _] => destruct b end; frames.
Qed.

(** What [addDetectionResult] does to the list, whatever the arguments. *)
Lemma addDetectionResult_list (clientId status : string) (confidence : number)
    (message : string) (st : state) :
  resultsList (addDetectionResult clientId status confidence message st) =
  (resultsList st ++ [{| className := "result-item"; innerHTML := message |}])%list.
Proof. reflexivity. Qed.

Lemma addDetectionResult_ids (clientId status : string) (confidence : number)
    (message : string) (st : state) :
  myId (addDetectionResult clientId status confidence message st) = myId st /\
  currentClientId (addDetectionResult clientId status confidence message st)
  = currentClientId st.
Proof. split; reflexivity. Qed.

(** The prefixes exclude one another. *)
Lemma detection_is_not_identity (data : string) :
  Js.startsWith data "DETECTION:" = true -> Js.startsWith data "Your ID: " = false.
Proof. intros H. apply prefix_split in H as [r ->]. reflexivity. Qed.

Lemma page_count_is_no_other (data : string) :
  Js.startsWith data "PAGE_COUNT:" = true ->
  Js.startsWith data "Your ID: " = false /\ Js.startsWith data "DETECTION:" = false.
Proof. intros H. apply prefix_split in H as [r ->]. now split. Qed.

Lemma page_result_is_no_other (data : string) :
  Js.startsWith data "PAGE_RESULT:" = true ->
  Js.startsWith data "Your ID: " = false /\ Js.startsWith data "DETECTION:" = false
  /\ Js.startsWith data "PAGE_COUNT:" = false.
Proof. intros H. apply prefix_split in H as [r ->]. now repeat split. Qed.

(** A DETECTION line of at least 5 fields reaches both UI functions. *)
Lemma onmessage_detection (data : string) (st : state) :
  Js.startsWith data "DETECTION:" = true ->
  5 <= List.length (Js.split data ":") ->
  let parts := Js.split data ":" in
  let clientId := nth 1 parts "" in
  let status := nth 2 parts "" in
  let confidence := Num.parseFloat (nth 3 parts "") in
  let message := Js.join (Js.slice parts 4) ":" in
  exists st1,
    only_logs st st1 /\
    In (Log [VStr "Detection data:";
             VObj [("clientId", VStr clientId); ("status", VStr status);
                   ("confidence", VNum confidence); ("message", VStr message);
                   ("currentClientId", VId (currentClientId st))]]) (console st1) /\
    onmessage data st =
    addDetectionResult clientId status confidence message
      (updateDetectionUI clientId status confidence message st1).
Proof.
  intros Hd Hn. cbv zeta. unfold onmessage.
  rewrite (detection_is_not_identity _ Hd), Hd.
  apply Nat.leb_le in Hn. rewrite Hn. cbv zeta.
  eexists. split; [|split; [|reflexivity]].
  - frames.
  - fields. rewrite !in_app_iff. left; right. now left.
Qed.

End Dispatch.

(** *** DETECTION lines *)

Section Detection.

Lemma only_logs_console (st st' : state) (l : line) :
  only_logs st st' -> In l (console st) -> In l (console st').
Proof. intros [ls ->] H. fields. apply in_or_app. now left. Qed.

Lemma addDetectionResult_console (clientId status : string) (confidence : number)
    (message : string) (st : state) (l : line) :
  In l (console st) ->
  In l (console (addDetectionResult clientId status confidence message st)).
Proof.
  intros H. unfold addDetectionResult. fields.
  repeat (apply in_or_app; left). exact H.
Qed.

(** Every DETECTION line of at least 5 fields adds one entry holding the
    message, whatever its client id and whatever its confidence field. *)
Lemma detection_appends (data : string) (st : state) :
  Js.startsWith data "DETECTION:" = true ->
  5 <= List.length (Js.split data ":") ->
  resultsList (onmessage data st) =
  (resultsList st ++ [{| className := "result-item";
                         innerHTML := Js.join (Js.slice (Js.split data ":") 4) ":" |}])%list
  /\ myId (onmessage data st) = myId st
  /\ currentClientId (onmessage data st) = currentClientId st.
Proof.
  intros Hd Hn.
  destruct (onmessage_detection data st Hd Hn) as (st1 & H1 & _ & ->).
  pose proof (updateDetectionUI_only_logs
                (nth 1 (Js.split data ":") "") (nth 2 (Js.split data ":") "")
                (Num.parseFloat (nth 3 (Js.split data ":") ""))
                (Js.join (Js.slice (Js.split data ":") 4) ":") st1) as H2.
  destruct (only_logs_fields _ _ (only_logs_trans _ _ _ H1 H2))
    as (Hm & Hc & Hl & _).
  rewrite addDetectionResult_list, Hl.
  destruct (addDetectionResult_ids
              (nth 1 (Js.split data ":") "") (nth 2 (Js.split data ":") "")
              (Num.parseFloat (nth 3 (Js.split data ":") ""))
              (Js.join (Js.slice (Js.split data ":") 4) ":")
              (updateDetectionUI
                 (nth 1 (Js.split data ":") "") (nth 2 (Js.split data ":") "")
                 (Num.parseFloat (nth 3 (Js.split data ":") ""))
                 (Js.join (Js.slice (Js.split data ":") 4) ":") st1)) as [-> ->].
  now rewrite Hm, Hc.
Qed.

End Detection.

(** C1, at the input [DETECTION:xyz999:done:0.5:ignored] with active id
    [abc123]: the client id of the line is not the active one,
    [updateDetectionUI] logs the mismatch, and the list still gets an entry
    holding [ignored], so it is not the list it was before. *)
Theorem C1_mismatched_detection_is_rendered :
  let st := Example.st in
  let data := "DETECTION:xyz999:done:0.5:ignored" in
  5 <= List.length (Js.split data ":") /\
  nth 1 (Js.split data ":") "" = "xyz999" /\
  currentClientId st = Some "abc123" /\
  In (Stamped "UI_FUNCTION" [VStr "Client ID mismatch - skipping updateDetectionUI"])
     (console (onmessage data st)) /\
  resultsList st = [] /\
  resultsList (onmessage data st)
  = [{| className := "result-item"; innerHTML := "ignored" |}] /\
  resultsList (onmessage data st) <> resultsList st.
Proof.
  cbv zeta. repeat split; try reflexivity.
  - vm_compute. tauto.
  - vm_compute. discriminate.
Qed.

Lemma text_of_plain (s : string) :
  Dom.plain s = true -> Dom.textContent s = Some s.
Proof.
  unfold Dom.textContent. induction s as [|c s IH]; [reflexivity|].
  cbn [Dom.plain Dom.text_from]. intros H.
  apply andb_true_iff in H as [H Hs].
  apply andb_true_iff in H as [H H13].
  apply andb_true_iff in H as [H H0].
  apply andb_true_iff in H as [Hlt Hamp].
  apply negb_true_iff in Hlt, Hamp, H0, H13.
  rewrite Hlt, Hamp, H0, H13. cbn [orb]. now rewrite (IH Hs).
Qed.

Example textContent_samples :
  map Dom.textContent ["Looks valid:extra"; "<b>Tom & Jerry</b>"; "x<em>y</em>z";
                       "a < b"; "R&D"; "fish & chips"; "&amp;"; "<script>"; "<B>"]
  = [Some "Looks valid:extra"; Some "Tom & Jerry"; Some "xyz";
     Some "a < b"; None; Some "fish & chips"; None; None; None].
Proof. reflexivity. Qed.

(** C2, as stated, fails on [DETECTION:abc123:done:0.97:<b>Tom & Jerry</b>]
    with active id [abc123]: the message field is [<b>Tom & Jerry</b>], it is
    assigned to [innerHTML] and parsed as markup, and the entry shows
    [Tom & Jerry]. *)
Lemma C2_content_counterexample :
  let data := "DETECTION:abc123:done:0.97:<b>Tom & Jerry</b>" in
  5 <= List.length (Js.split data ":") /\
  currentClientId Example.st = Some (nth 1 (Js.split data ":") "") /\
  Js.join (Js.slice (Js.split data ":") 4) ":" = "<b>Tom & Jerry</b>" /\
  map text_of (resultsList (onmessage data Example.st)) = [Some "Tom & Jerry"] /\
  map text_of (resultsList (onmessage data Example.st))
  <> [Some (Js.join (Js.slice (Js.split data ":") 4) ":")].
Proof.
  cbv zeta. split; [vm_compute; lia|]. split; [reflexivity|].
  split; [reflexivity|]. split; [reflexivity|]. vm_compute. discriminate.
Qed.

(** C2, amended. For every DETECTION line of at least 5 fields whose client
    id is the active upload's, the dispatch adds exactly one entry at the end
    of the list, of class [result-item], and the markup assigned to its
    [innerHTML] is the message: the fields from index 4 on, joined with [:].
    The text the entry shows is the message when the message has no [<], no
    [&], no NUL and no carriage return; otherwise the message is parsed as
    markup. *)
Theorem C2_matching_detection_appends (data : string) (st : state) :
  Js.startsWith data "DETECTION:" = true ->
  5 <= List.length (Js.split data ":") ->
  currentClientId st = Some (nth 1 (Js.split data ":") "") ->
  let message := Js.join (Js.slice (Js.split data ":") 4) ":" in
  exists el,
    resultsList (onmessage data st) = (resultsList st ++ [el])%list /\
    el = {| className := "result-item"; innerHTML := message |} /\
    (Dom.plain message = true -> text_of el = Some message).
Proof.
  intros Hd Hn _. cbv zeta. eexists. split; [|split; [reflexivity|]].
  - apply (detection_appends data st Hd Hn).
  - apply text_of_plain.
Qed.

Lemma C2_matching_detection_appends_witness :
  let st := Example.st in
  let data := "DETECTION:abc123:done:0.97:Looks valid:extra" in
  exists el,
    resultsList (onmessage data st) = [el] /\
    el = {| className := "result-item"; innerHTML := "Looks valid:extra" |} /\
    text_of el = Some "Looks valid:extra".
Proof.
  cbv zeta.
  destruct (C2_matching_detection_appends
              "DETECTION:abc123:done:0.97:Looks valid:extra" Example.st)
    as (el & Hl & He & Ht).
  - reflexivity.
  - vm_compute. lia.
  - reflexivity.
  - exists el. split; [exact Hl|]. split; [exact He|].
    apply Ht. reflexivity.
Defined.

(** *** The identity announcement *)

Section Identity.

Lemma substring_all (s : string) : String.substring 0 (String.length s) s = s.
Proof. induction s as [|c s IH]; [reflexivity|]. simpl. now rewrite IH. Qed.

(** The first field of a split is what comes before the first separator. *)
Lemma first_field (sep s : string) :
  nth_error (Js.split_from sep 0 s) 0 = Some (Spec.before_first sep s).
Proof.
  unfold Spec.before_first. induction s as [|a s IH].
  - cbn. now destruct sep.
  - cbn [Js.split_from String.index].
    destruct (String.prefix sep (String a s)); [reflexivity|].
    pose proof (split_from_not_nil sep 0 s) as Hne.
    destruct (Js.split_from sep 0 s) as [|f fs]; [easy|].
    cbn in IH |- *. injection IH as ->.
    now destruct (String.index 0 sep s).
Qed.

(** The fields of an identity line: [Your ID], then those of the rest. *)
Lemma split_identity (rest : string) :
  Js.split ("Your ID: " ++ rest) ": " = "Your ID" :: Js.split_from ": " 0 rest.
Proof. now destruct rest. Qed.

Lemma after_first_identity (rest : string) :
  Spec.after_first ": " ("Your ID: " ++ rest) = Some rest.
Proof.
  unfold Spec.after_first.
  assert (E : String.index 0 ": " ("Your ID: " ++ rest) = Some 7)
    by now destruct rest.
  rewrite E. cbn. now rewrite Nat.sub_0_r, substring_all.
Qed.

End Identity.

(** C3, as stated, fails on [Your ID: a: b]: the substring after the first
    [: ] is [a: b], and the Session Identity becomes [a]. *)
Lemma C3_identity_counterexample :
  let st := loaded [] Example.ready in
  Js.startsWith "Your ID: a: b" "Your ID: " = true /\
  Spec.after_first ": " "Your ID: a: b" = Some "a: b" /\
  myId (onmessage "Your ID: a: b" st) = Some "a" /\
  myId (onmessage "Your ID: a: b" st) <> Spec.after_first ": " "Your ID: a: b".
Proof.
  cbv zeta. repeat split; try reflexivity. vm_compute. discriminate.
Qed.

(** C3, amended. For every line that begins with [Your ID: ], the Session
    Identity after the dispatch is the second field of the line split on
    [: ]: the substring that follows the first [: ], up to the next [: ] in
    it if there is one, and all of it otherwise. Nothing else changes but the
    console. *)
Theorem C3_identity_is_second_field (data : string) (st : state) :
  Js.startsWith data "Your ID: " = true ->
  exists rest,
    Spec.after_first ": " data = Some rest /\
    myId (onmessage data st) = Some (Spec.before_first ": " rest) /\
    (String.index 0 ": " rest = None -> myId (onmessage data st) = Some rest) /\
    only_logs (set_myId (Some (Spec.before_first ": " rest)) st) (onmessage data st).
Proof.
  intros H. pose proof H as H'. apply prefix_split in H' as [rest ->].
  exists rest. split; [apply after_first_identity|].
  assert (E : onmessage ("Your ID: " ++ rest) st =
              addLog "CONNECTION" [VStr "WebSocket connected with ID: ";
                                   VStr (Spec.before_first ": " rest)]
                (console_log [VStr "Connected with WebSocket ID:";
                              VStr (Spec.before_first ": " rest)]
                   (set_myId (Some (Spec.before_first ": " rest))
                      (addLog "WEBSOCKET" [VStr "Received: "; VStr ("Your ID: " ++ rest)]
                         (console_log [VStr "WebSocket message received:";
                                       VStr ("Your ID: " ++ rest)] st))))).
  { unfold onmessage. rewrite H, split_identity. cbv zeta.
    change (nth_error ("Your ID" :: Js.split_from ": " 0 rest) 1)
      with (nth_error (Js.split_from ": " 0 rest) 0).
    rewrite first_field. reflexivity. }
  rewrite E. split; [reflexivity|]. split.
  - intros Hnone. fields. unfold Spec.before_first. now rewrite Hnone.
  - eexists. destruct st. fields. rewrite <- !app_assoc. reflexivity.
Qed.

Lemma C3_identity_is_second_field_witness :
  exists rest,
    Spec.after_first ": " "Your ID: sess-42" = Some rest /\
    myId (onmessage "Your ID: sess-42"
            (loaded [] Example.ready))
    = Some (Spec.before_first ": " rest).
Proof.
  destruct (C3_identity_is_second_field "Your ID: sess-42"
              (loaded [] Example.ready)
              eq_refl) as (rest & H1 & H2 & _).
  exists rest. split; assumption.
Defined.

(** *** PAGE_COUNT and PAGE_RESULT lines, and DETECTION lines cut short *)

Section LoggedOnly.

Lemma onmessage_page_count (data : string) (st : state) :
  Js.startsWith data "PAGE_COUNT:" = true -> only_logs st (onmessage data st).
Proof.
  intros H. destruct (page_count_is_no_other _ H) as [H1 H2].
  unfold onmessage. rewrite H1, H2, H. cbv zeta.
  destruct (3 <=? List.length (Js.split data ":"))%nat; frames.
Qed.

Lemma onmessage_page_result (data : string) (st : state) :
  Js.startsWith data "PAGE_RESULT:" = true -> only_logs st (onmessage data st).
Proof.
  intros H. destruct (page_result_is_no_other _ H) as (H1 & H2 & H3).
  unfold onmessage. rewrite H1, H2, H3, H. cbv zeta.
  destruct (7 <=? List.length (Js.split data ":"))%nat; frames.
Qed.

End LoggedOnly.

(** C5. For every line that begins with [PAGE_COUNT:] or [PAGE_RESULT:],
    with enough fields or not and whatever its numeric fields hold, the
    dispatch only adds lines to the console, and the rendered list is the one
    it was. *)
Theorem C5_page_events_leave_list (data : string) (st : state) :
  Js.startsWith data "PAGE_COUNT:" = true \/ Js.startsWith data "PAGE_RESULT:" = true ->
  only_logs st (onmessage data st) /\
  resultsList (onmessage data st) = resultsList st.
Proof.
  intros H.
  assert (L : only_logs st (onmessage data st))
    by (destruct H; [now apply onmessage_page_count | now apply onmessage_page_result]).
  split; [exact L|]. apply (only_logs_fields _ _ L).
Qed.

Lemma C5_page_events_leave_list_witness :
  let st := set_currentClientId (Some "abc123")
              (loaded [{| className := "result-item"; innerHTML := "kept" |}]
                      Example.ready) in
  resultsList (onmessage "PAGE_RESULT:abc123:1:portrait:0.77:600:800" st)
  = [{| className := "result-item"; innerHTML := "kept" |}] /\
  resultsList (onmessage "PAGE_COUNT:abc123:many" st)
  = [{| className := "result-item"; innerHTML := "kept" |}] /\
  resultsList (onmessage "PAGE_RESULT:abc123" st)
  = [{| className := "result-item"; innerHTML := "kept" |}].
Proof.
  cbv zeta. split; [|split].
  - apply (C5_page_events_leave_list "PAGE_RESULT:abc123:1:portrait:0.77:600:800").
    right. reflexivity.
  - apply (C5_page_events_leave_list "PAGE_COUNT:abc123:many").
    left. reflexivity.
  - apply (C5_page_events_leave_list "PAGE_RESULT:abc123").
    right. reflexivity.
Defined.

(** C6. For every line that begins with [DETECTION:] and splits on [:] into
    fewer than 5 fields, the dispatch adds the line received and the
    announcement of a detection message to the console and does nothing
    else: neither UI function is called, and the list, the Session Identity
    and the Active Upload Client Id are those of before. *)
Theorem C6_short_detection_dropped (data : string) (st : state) :
  Js.startsWith data "DETECTION:" = true ->
  List.length (Js.split data ":") < 5 ->
  onmessage data st =
    set_console (console st ++
                 [Log [VStr "WebSocket message received:"; VStr data];
                  Stamped "WEBSOCKET" [VStr "Received: "; VStr data];
                  Log [VStr "Processing DETECTION message"];
                  Stamped "DETECTION" [VStr "Processing detection message"]])%list st
  /\ resultsList (onmessage data st) = resultsList st
  /\ myId (onmessage data st) = myId st
  /\ currentClientId (onmessage data st) = currentClientId st.
Proof.
  intros Hd Hn.
  assert (E : onmessage data st =
    set_console (console st ++
                 [Log [VStr "WebSocket message received:"; VStr data];
                  Stamped "WEBSOCKET" [VStr "Received: "; VStr data];
                  Log [VStr "Processing DETECTION message"];
                  Stamped "DETECTION" [VStr "Processing detection message"]])%list st).
  { unfold onmessage. rewrite (detection_is_not_identity _ Hd), Hd.
    apply Nat.leb_gt in Hn. rewrite Hn. destruct st. fields.
    now rewrite <- !app_assoc. }
  rewrite E. now fields.
Qed.

Lemma C6_short_detection_dropped_witness :
  let st := Example.st in
  List.length (Js.split "DETECTION:abc123:done:0.5" ":") < 5 /\
  resultsList (onmessage "DETECTION:abc123:done:0.5" st) = [] /\
  myId (onmessage "DETECTION:abc123:done:0.5" st) = None /\
  currentClientId (onmessage "DETECTION:abc123:done:0.5" st) = Some "abc123".
Proof.
  cbv zeta.
  assert (Hn : List.length (Js.split "DETECTION:abc123:done:0.5" ":") < 5)
    by (vm_compute; lia).
  split; [exact Hn|].
  apply (C6_short_detection_dropped "DETECTION:abc123:done:0.5"
           (Example.st)
           eq_refl Hn).
Defined.

(** C7. For every DETECTION line of at least 5 fields whose confidence field
    [parseFloat] does not accept, the confidence is [NaN], the event goes on
    to both UI functions with it, and the list gets the entry of the message
    as it does for any other DETECTION line with the same client id and the
    same message fields. *)
Theorem C7_unparseable_confidence_dispatches (data : string) (st : state) :
  Js.startsWith data "DETECTION:" = true ->
  5 <= List.length (Js.split data ":") ->
  Num.parseFloat (nth 3 (Js.split data ":") "") = NaN ->
  let parts := Js.split data ":" in
  let message := Js.join (Js.slice parts 4) ":" in
  In (Log [VStr "Detection data:";
           VObj [("clientId", VStr (nth 1 parts "")); ("status", VStr (nth 2 parts ""));
                 ("confidence", VNum NaN); ("message", VStr message);
                 ("currentClientId", VId (currentClientId st))]])
     (console (onmessage data st)) /\
  (exists st1, only_logs st st1 /\
     onmessage data st =
     addDetectionResult (nth 1 parts "") (nth 2 parts "") NaN message
       (updateDetectionUI (nth 1 parts "") (nth 2 parts "") NaN message st1)) /\
  resultsList (onmessage data st) =
  (resultsList st ++ [{| className := "result-item"; innerHTML := message |}])%list /\
  (forall data',
      Js.startsWith data' "DETECTION:" = true ->
      5 <= List.length (Js.split data' ":") ->
      Js.slice (Js.split data' ":") 4 = Js.slice parts 4 ->
      resultsList (onmessage data' st) = resultsList (onmessage data st)).
Proof.
  intros Hd Hn Hnan. cbv zeta.
  destruct (onmessage_detection data st Hd Hn) as (st1 & H1 & Hin & E).
  rewrite Hnan in *.
  destruct (detection_appends data st Hd Hn) as (Hl & _).
  split; [|split; [|split]].
  - rewrite E. apply addDetectionResult_console.
    eapply only_logs_console; [apply updateDetectionUI_only_logs|exact Hin].
  - exists st1. split; [exact H1|exact E].
  - exact Hl.
  - intros data' Hd' Hn' Hs.
    destruct (detection_appends data' st Hd' Hn') as (Hl' & _).
    now rewrite Hl', Hl, Hs.
Qed.

Lemma C7_unparseable_confidence_dispatches_witness :
  let st := Example.st in
  Num.parseFloat (nth 3 (Js.split "DETECTION:abc123:done:high:Looks valid" ":") "") = NaN /\
  resultsList (onmessage "DETECTION:abc123:done:high:Looks valid" st) =
  [{| className := "result-item"; innerHTML := "Looks valid" |}] /\
  resultsList (onmessage "DETECTION:abc123:done:0.97:Looks valid" st) =
  resultsList (onmessage "DETECTION:abc123:done:high:Looks valid" st).
Proof.
  cbv zeta.
  assert (Hn : 5 <= List.length (Js.split "DETECTION:abc123:done:high:Looks valid" ":"))
    by (vm_compute; lia).
  destruct (C7_unparseable_confidence_dispatches
              "DETECTION:abc123:done:high:Looks valid"
              Example.st
              eq_refl Hn eq_refl) as (_ & _ & Hl & Hsame).
  split; [reflexivity|]. split; [exact Hl|].
  apply Hsame; [reflexivity | vm_compute; lia | reflexivity].
Defined.

(** ** The client id *)

Section ClientId.

Lemma length_substring_0 (n : nat) (s : string) :
  String.length (String.substring 0 n s) = Nat.min n (String.length s).
Proof.
  revert n; induction s as [|c s IH]; intros [|n]; try reflexivity.
  cbn [String.substring String.length Nat.min]. now rewrite IH.
Qed.

Lemma all_base36_substring_0 (n : nat) (s : string) :
  Spec.all_base36 s = true -> Spec.all_base36 (String.substring 0 n s) = true.
Proof.
  revert n; induction s as [|c s IH]; intros [|n] H; try reflexivity.
  cbn [String.substring Spec.all_base36] in *.
  apply andb_true_iff in H as [Hc Hs]. now rewrite Hc, IH.
Qed.

Lemma digit_char_is_base36 (d : digit36) : Spec.is_base36 (digit_char d) = true.
Proof.
  destruct d as [v Hv]. unfold digit_char, Spec.is_base36. cbn [digit_value].
  apply Nat.ltb_lt in Hv.
  destruct (v <? 10)%nat eqn:E;
    [apply Nat.ltb_lt in E | apply Nat.ltb_ge in E];
    rewrite nat_ascii_embedding by lia;
    apply orb_true_iff; [left | right];
    apply andb_true_iff; split; apply Nat.leb_le; lia.
Qed.

Lemma all_base36_digits (ds : list digit36) :
  Spec.all_base36 (string_of_list_ascii (map digit_char ds)) = true.
Proof.
  induction ds as [|d ds IH]; [reflexivity|].
  cbn [map string_of_list_ascii Spec.all_base36].
  now rewrite digit_char_is_base36, IH.
Qed.

Lemma length_digits (ds : list digit36) :
  String.length (string_of_list_ascii (map digit_char ds)) = List.length ds.
Proof. induction ds as [|d ds IH]; [reflexivity|]. cbn. now rewrite IH. Qed.

(** What [substr(2, 8)] keeps of the numeral: its first fractional digits, 8
    of them at most. *)
Lemma substr_toString36 (x : random) :
  Js.substr (toString36 x) 2 8 =
  match x with
  | Zero => ""
  | Fraction d ds =>
      String.substring 0 8 (string_of_list_ascii (map digit_char (d :: ds)))
  end.
Proof.
  destruct x as [|d ds]; [reflexivity|].
  unfold Js.substr, toString36.
  cbn [String.append String.length String.substring Nat.sub].
  rewrite Nat.sub_0_r.
  set (s := string_of_list_ascii (map digit_char (d :: ds))).
  clearbody s. clear d ds.
  assert (G : forall n m t, String.length t <= m ->
              String.substring 0 (Nat.min n m) t = String.substring 0 n t).
  { intros n m t; revert n m; induction t as [|c t IH]; intros [|n] [|m] H;
      try reflexivity; cbn [String.length] in H; try lia.
    cbn [Nat.min String.substring]. rewrite IH by lia. reflexivity. }
  now apply G.
Qed.

(** The first [n] code units of [s] and the rest: the rest is empty unless
    [s] has more than [n]. *)
Lemma substring_0_rest (n : nat) (s : string) :
  exists rest,
    s = String.substring 0 n s ++ rest /\
    (rest = "" \/ n <= String.length s).
Proof.
  revert n; induction s as [|c s IH]; intros n.
  - exists "". split; [now destruct n|now left].
  - destruct n as [|n].
    + exists (String c s). split; [reflexivity|right; lia].
    + destruct (IH n) as (rest & E & R). exists rest.
      cbn [String.substring String.append String.length].
      split; [now rewrite <- E|]. destruct R; [now left|right; lia].
Qed.

End ClientId.

(** C9, as stated, fails when [Math.random()] returns one half, which
    [toString(36)] prints as [0.i]: the identifier is [client_i], of length
    8 and with one character after the prefix. *)
Lemma C9_client_id_counterexample :
  toString36 Example.half = "0.i" /\
  generateClientId Example.half = "client_i" /\
  String.length (generateClientId Example.half) <> 15.
Proof.
  cbv zeta. split; [reflexivity|]. split; [reflexivity|].
  vm_compute. discriminate.
Qed.

(** C9, amended. Every identifier the generator produces is [client_]
    followed by the first fractional digits of the radix-36 numeral of the
    random value, 8 of them at most and all of them when the numeral has
    fewer: the numeral is [0] and the tail is empty, or the numeral is [0.],
    the tail and a rest, and the rest is empty or the tail has 8 characters.
    The tail has at most 8 characters, each a digit or a lower-case letter,
    so that the identifier has between 7 and 15 characters, and 15 exactly
    when the numeral has 8 fractional digits or more. *)
Theorem C9_client_id_shape (x : random) :
  exists tail rest,
    generateClientId x = "client_" ++ tail /\
    ((toString36 x = "0" /\ tail = "" /\ rest = "") \/
     toString36 x = "0." ++ tail ++ rest) /\
    (rest = "" \/ String.length tail = 8) /\
    String.length tail = Nat.min 8 (fraction_digits x) /\
    Spec.all_base36 tail = true /\
    String.length (generateClientId x) = 7 + Nat.min 8 (fraction_digits x).
Proof.
  assert (L : String.length (Js.substr (toString36 x) 2 8)
              = Nat.min 8 (fraction_digits x)).
  { rewrite substr_toString36. destruct x as [|d ds]; [reflexivity|].
    rewrite length_substring_0, length_digits. reflexivity. }
  assert (B : Spec.all_base36 (Js.substr (toString36 x) 2 8) = true).
  { rewrite substr_toString36. destruct x as [|d ds]; [reflexivity|].
    apply all_base36_substring_0, all_base36_digits. }
  assert (T : String.length (generateClientId x)
              = 7 + Nat.min 8 (fraction_digits x)).
  { unfold generateClientId. cbn [String.append String.length].
    rewrite L. reflexivity. }
  destruct x as [|d ds].
  - exists "", "". split; [reflexivity|]. split; [now left|].
    split; [now left|]. split; [exact L|]. split; [exact B|exact T].
  - destruct (substring_0_rest 8 (string_of_list_ascii (map digit_char (d :: ds))))
      as (rest & E & R).
    exists (Js.substr (toString36 (Fraction d ds)) 2 8), rest.
    split; [reflexivity|]. rewrite substr_toString36 in *.
    split; [right; unfold toString36; now rewrite <- E|].
    split; [|split; [exact L|split; [exact B|exact T]]].
    destruct R as [R|R]; [now left|right].
    rewrite length_substring_0. lia.
Qed.

(** ** The upload handler among the socket events *)

Section Upload.

(** A message changes neither the active id nor the button. *)
Lemma onmessage_frame (data : string) (st : state) :
  currentClientId (onmessage data st) = currentClientId st /\
  uploadBtn (onmessage data st) = uploadBtn st.
Proof.
  unfold onmessage, addDetectionResult, updateDetectionUI. cbv zeta.
  repeat match goal with
         | |- context [if ?b then _ else _] => destruct b
         end; split; reflexivity.
Qed.

Lemma step_socket (p p' : page) (e : event) :
  socket_event e = true -> step p e = Some p' ->
  pending p' = pending p /\ currentClientId (dom p') = currentClientId (dom p).
Proof.
  destruct e; try discriminate; intros _ H; cbn in H;
    injection H as <-; cbn [pending dom]; split; try reflexivity.
  apply onmessage_frame.
Qed.

Lemma run_socket (es : list event) (p p' : page) :
  forallb socket_event es = true -> run p es = Some p' ->
  pending p' = pending p /\ currentClientId (dom p') = currentClientId (dom p).
Proof.
  revert p; induction es as [|e es IH]; intros p Hs H.
  - injection H as <-. now split.
  - cbn [forallb] in Hs. apply andb_true_iff in Hs as [He Hes].
    cbn [run] in H. destruct (step p e) as [q|] eqn:E; [|discriminate].
    destruct (step_socket _ _ _ He E) as [<- <-]. now apply IH.
Qed.

Lemma run_app (es1 es2 : list event) (p : page) :
  run p (es1 ++ es2)%list =
  match run p es1 with
  | Some q => run q es2
  | None => None
  end.
Proof.
  revert p; induction es1 as [|e es1 IH]; intros p; [reflexivity|].
  cbn [app run]. now destruct (step p e).
Qed.

(** What the catch block leaves alone. *)
Lemma on_catch_frame (e : error) (st : state) :
  currentClientId (on_catch e st) = currentClientId st /\
  resultsList (on_catch e st) = resultsList st.
Proof. now split. Qed.

(** The handler from the click to the reply, socket events in between: when
    it gets to the end of the success path, the active id is the one
    generated at the click and the list is empty. *)
Lemma upload_success (p p' : page) (f : file) (x : random)
    (es1 es2 : list event) (status : nat) (r : reply) :
  forallb socket_event es1 = true ->
  forallb socket_event es2 = true ->
  run p (Click (Some f) x :: es1 ++ Fetched (FetchResolves status)
           :: es2 ++ [Parsed (JsonResolves r)])%list = Some p' ->
  truthy (reply_error r) = false ->
  currentClientId (dom p') = Some (generateClientId x) /\
  resultsList (dom p') = [] /\
  ok status = true.
Proof.
  intros H1 H2 H Hr. cbn [run] in H.
  destruct (step p (Click (Some f) x)) as [p1|] eqn:E1; [|discriminate].
  assert (W1 : pending p1 = Some (AwaitFetch (generateClientId x))).
  { unfold step in E1. destruct (pending p) as [[c|c]|]; try discriminate.
    destruct (disabled (uploadBtn (dom p))); [discriminate|].
    cbn in E1. now injection E1 as <-. }
  rewrite run_app in H. destruct (run p1 es1) as [p2|] eqn:E2; [|discriminate].
  destruct (run_socket _ _ _ H1 E2) as [W2 _]. rewrite W1 in W2.
  cbn [run] in H. unfold step at 1 in H. rewrite W2 in H.
  cbn [resume_fetch] in H.
  destruct (ok status); cbn [negb] in H; rewrite run_app in H;
    match type of H with
    | match run ?q es2 with _ => _ end = _ =>
        destruct (run q es2) as [p3|] eqn:E3; [|discriminate];
        destruct (run_socket _ _ _ H2 E3) as [W3 _]
    end;
    cbn [pending] in W3; cbn [run] in H; unfold step in H; rewrite W3 in H;
    [|discriminate].
  injection H as <-. cbn [dom resume_json]. rewrite Hr. now split.
Qed.

(** A step that is not the end of the success path leaves the active id
    alone; if it is a step of the upload handler, the list as well. *)
Lemma step_keeps (p p' : page) (e : event) :
  step p e = Some p' ->
  (forall r, e = Parsed (JsonResolves r) -> truthy (reply_error r) = true) ->
  currentClientId (dom p') = currentClientId (dom p) /\
  (socket_event e = false -> resultsList (dom p') = resultsList (dom p)).
Proof.
  intros H Hr. destruct e as [data| |m|code reason|selected x|o|o].
  - destruct (step_socket p p' (Message data) eq_refl H) as [_ ->].
    split; [reflexivity|discriminate].
  - destruct (step_socket p p' Open eq_refl H) as [_ ->].
    split; [reflexivity|discriminate].
  - destruct (step_socket p p' (SocketError m) eq_refl H) as [_ ->].
    split; [reflexivity|discriminate].
  - destruct (step_socket p p' (Close code reason) eq_refl H) as [_ ->].
    split; [reflexivity|discriminate].
  - unfold step in H. destruct (pending p) as [[c|c]|]; try discriminate.
    destruct (disabled (uploadBtn (dom p))); [discriminate|].
    destruct selected; cbn in H; injection H as <-; now split.
  - unfold step in H. destruct (pending p) as [[c|c]|]; try discriminate.
    destruct o as [e|status]; cbn [resume_fetch] in H.
    + injection H as <-. cbn [dom]. now split.
    + destruct (ok status); cbn [negb] in H; injection H as <-; now split.
  - unfold step in H. destruct (pending p) as [[c|c]|]; try discriminate.
    injection H as <-. cbn [dom]. destruct o as [e| |r]; cbn [resume_json].
    + now split.
    + now split.
    + rewrite (Hr r eq_refl).
      destruct (reply_supported_types r); now split.
Qed.

(** The pages reached from a loaded one keep the button disabled while the
    handler waits, so that no second upload begins meanwhile: [step] loses
    no click by refusing one when a handler is waiting. *)
Lemma step_waiting_disables (p p' : page) (e : event) :
  step p e = Some p' -> waiting_disables p -> waiting_disables p'.
Proof.
  unfold waiting_disables. intros H Inv.
  destruct e as [data| |m|code reason|selected x|o|o].
  - cbn in H. injection H as <-. cbn [pending dom].
    now rewrite (proj2 (onmessage_frame data (dom p))).
  - cbn in H. now injection H as <-.
  - cbn in H. now injection H as <-.
  - cbn in H. now injection H as <-.
  - unfold step in H. destruct (pending p) as [[c|c]|]; try discriminate.
    destruct (disabled (uploadBtn (dom p))); [discriminate|].
    destruct selected; cbn in H; injection H as <-; [reflexivity|easy].
  - unfold step in H. destruct (pending p) as [[c|c]|] eqn:W; try discriminate.
    destruct o as [e|status]; cbn [resume_fetch] in H.
    + now injection H as <-.
    + destruct (ok status); cbn [negb] in H; injection H as <-; [|easy].
      intros _. cbn [dom]. fields. now apply Inv.
  - unfold step in H. destruct (pending p) as [[c|c]|]; try discriminate.
    now injection H as <-.
Qed.

End Upload.

(** C8, as stated, fails: on a page whose active id is [abc123], an upload
    that begins generates [client_4fzyo82m] and the active id stays
    [abc123], when the handler reaches [await fetch] and also once the
    attempt has failed by a rejected [fetch], by status 500, or by a reply
    with an [error] field. *)
Lemma C8_active_id_counterexample :
  let begun := Click (Some Example.report) Example.x in
  let active es := option_map (fun q => currentClientId (dom q)) (run Example.idle es) in
  generateClientId Example.x = "client_4fzyo82m" /\
  active [begun] = Some (Some "abc123") /\
  active [begun; Fetched (FetchRejects (Error "Failed to fetch"))] = Some (Some "abc123") /\
  active [begun; Fetched (FetchResolves 500)] = Some (Some "abc123") /\
  active [begun; Fetched (FetchResolves 200); Parsed (JsonResolves Example.refused)]
  = Some (Some "abc123") /\
  active [begun] <> Some (Some (generateClientId Example.x)).
Proof.
  cbv zeta. repeat split; try reflexivity. vm_compute. discriminate.
Qed.

(** C8, amended. The Active Upload Client Id is set to the identifier
    generated when the upload began at the moment the upload succeeds, that
    is when the response has a success status and its JSON body has no
    truthy [error], whatever socket events are handled meanwhile; it then
    supersedes the previous one. No other step of the page changes it: not
    the beginning of an upload, and not an attempt that ends with no file, a
    transport error, a non-success status, an unreadable body or a
    server-reported error. *)
Theorem C8_active_id_set_on_success :
  (forall (p p' : page) (f : file) (x : random) (es1 es2 : list event)
          (status : nat) (r : reply),
      forallb socket_event es1 = true ->
      forallb socket_event es2 = true ->
      run p (Click (Some f) x :: es1 ++ Fetched (FetchResolves status)
               :: es2 ++ [Parsed (JsonResolves r)])%list = Some p' ->
      truthy (reply_error r) = false ->
      currentClientId (dom p') = Some (generateClientId x)) /\
  (forall (p p' : page) (e : event),
      step p e = Some p' ->
      (forall r, e = Parsed (JsonResolves r) -> truthy (reply_error r) = true) ->
      currentClientId (dom p') = currentClientId (dom p)).
Proof.
  split.
  - intros p p' f x es1 es2 status r H1 H2 H Hr.
    apply (upload_success p p' f x es1 es2 status r H1 H2 H Hr).
  - intros p p' e H Hr. apply (step_keeps p p' e H Hr).
Qed.

Lemma C8_active_id_set_on_success_witness :
  (exists p',
      run Example.idle
        [Click (Some Example.report) Example.x;
         Message "PAGE_COUNT:client_4fzyo82m:2";
         Fetched (FetchResolves 200);
         Message "DETECTION:client_4fzyo82m:done:0.9:first page";
         Parsed (JsonResolves Example.accepted)] = Some p' /\
      currentClientId (dom p') = Some "client_4fzyo82m") /\
  (exists p',
      step Example.idle (Click (Some Example.report) Example.x) = Some p' /\
      currentClientId (dom p') = Some "abc123").
Proof.
  destruct C8_active_id_set_on_success as [Hset Hkeep]. split.
  - eexists. split; [reflexivity|].
    apply (Hset Example.idle _ Example.report Example.x
             [Message "PAGE_COUNT:client_4fzyo82m:2"]
             [Message "DETECTION:client_4fzyo82m:done:0.9:first page"]
             200 Example.accepted);
      reflexivity.
  - eexists. split; [reflexivity|].
    eapply (Hkeep Example.idle _ (Click (Some Example.report) Example.x));
      [reflexivity | intros r Hr; discriminate Hr].
Defined.

(** C10, as stated, fails: a PAGE_COUNT event of the new upload that
    arrives while the upload is in flight is dispatched, as its console line
    shows, while the handler still waits and the entry of before is still in
    the list; the list is cleared after it, when the reply is handled. *)
Lemma C10_clear_counterexample :
  let kept := {| className := ""; innerHTML := "garbage line" |} in
  let before := {| dom := set_resultsList [kept] Example.st; pending := None |} in
  let begun := Click (Some Example.report) Example.x in
  let arrival := Message "PAGE_COUNT:client_4fzyo82m:2" in
  let dispatched := Stamped "PAGE_COUNT" [VStr "Client: "; VStr "client_4fzyo82m";
                                          VStr ", Pages: "; VNum (Numeral "2")] in
  let view es := option_map (fun q => (resultsList (dom q), pending q))
                            (run before es) in
  generateClientId Example.x = "client_4fzyo82m" /\
  view [begun; arrival] = Some ([kept], Some (AwaitFetch "client_4fzyo82m")) /\
  option_map (fun q => last (console (dom q)) (Log [])) (run before [begun; arrival])
  = Some dispatched /\
  view [begun; arrival; Fetched (FetchResolves 200);
        Parsed (JsonResolves Example.accepted)]
  = Some ([], None).
Proof.
  cbv zeta. repeat split; reflexivity.
Qed.

(** C10, amended. On every successful upload (a success status and a JSON
    body with no truthy [error]) the rendered list is cleared at the moment
    the reply is handled, whatever socket events have been dispatched since
    the upload began: it is empty right after that step. Every other step of
    the upload handler, and so a failed upload from its beginning to its end,
    leaves the list as it is. *)
Theorem C10_list_cleared_on_success :
  (forall (p p' : page) (f : file) (x : random) (es1 es2 : list event)
          (status : nat) (r : reply),
      forallb socket_event es1 = true ->
      forallb socket_event es2 = true ->
      run p (Click (Some f) x :: es1 ++ Fetched (FetchResolves status)
               :: es2 ++ [Parsed (JsonResolves r)])%list = Some p' ->
      truthy (reply_error r) = false ->
      resultsList (dom p') = []) /\
  (forall (p p' : page) (e : event),
      step p e = Some p' ->
      socket_event e = false ->
      (forall r, e = Parsed (JsonResolves r) -> truthy (reply_error r) = true) ->
      resultsList (dom p') = resultsList (dom p)).
Proof.
  split.
  - intros p p' f x es1 es2 status r H1 H2 H Hr.
    apply (upload_success p p' f x es1 es2 status r H1 H2 H Hr).
  - intros p p' e H Hs Hr. now apply (step_keeps p p' e H Hr).
Qed.

Lemma C10_list_cleared_on_success_witness :
  let kept := {| className := ""; innerHTML := "garbage line" |} in
  let busy := {| dom := set_resultsList [kept] Example.st;
                 pending := Some (AwaitFetch "client_4fzyo82m") |} in
  (exists p',
      run {| dom := set_resultsList [kept] Example.st; pending := None |}
        [Click (Some Example.report) Example.x;
         Fetched (FetchResolves 200);
         Message "PAGE_RESULT:client_4fzyo82m:1:portrait:0.77:600:800";
         Parsed (JsonResolves Example.accepted)] = Some p' /\
      resultsList (dom p') = []) /\
  (exists p',
      step busy (Fetched (FetchResolves 500)) = Some p' /\
      resultsList (dom p') = [kept]).
Proof.
  cbv zeta. destruct C10_list_cleared_on_success as [Hclear Hkeep]. split.
  - eexists. split; [reflexivity|].
    apply (Hclear {| dom := set_resultsList
                              [{| className := ""; innerHTML := "garbage line" |}]
                              Example.st;
                     pending := None |} _
             Example.report Example.x []
             [Message "PAGE_RESULT:client_4fzyo82m:1:portrait:0.77:600:800"]
             200 Example.accepted);
      reflexivity.
  - eexists. split; [reflexivity|].
    eapply (Hkeep {| dom := set_resultsList
                              [{| className := ""; innerHTML := "garbage line" |}]
                              Example.st;
                     pending := Some (AwaitFetch "client_4fzyo82m") |} _
              (Fetched (FetchResolves 500)));
      [reflexivity | reflexivity | intros r Hr; discriminate Hr].
Defined.

(** * Further properties of the handlers *)

(** ** Fields and colons *)

Section Fields.

Lemma push_front_cons (a : ascii) (f : string) (fs : list string) :
  Js.push_front a (f :: fs) = String a f :: fs.
Proof. reflexivity. Qed.

(** A text with no separator in it, followed by a separator, is a field. *)
Lemma split_app_sep (c : ascii) (a r : string) :
  has_no c a = true ->
  Js.split (a ++ String c r) (String c "") = a :: Js.split r (String c "").
Proof.
  induction a as [|b a IH]; intros H.
  - cbn [String.append]. now rewrite split_char_cons, Ascii.eqb_refl.
  - cbn [has_no] in H. apply andb_true_iff in H as [Hb Ha].
    cbn [String.append]. rewrite split_char_cons.
    apply negb_true_iff in Hb. rewrite Hb, (IH Ha). reflexivity.
Qed.

Lemma split_fields_have_no (c : ascii) (s : string) :
  Forall (fun f => has_no c f = true) (Js.split s (String c "")).
Proof.
  induction s as [|a s IH]; [now repeat constructor|].
  rewrite split_char_cons. destruct (a =? c)%char eqn:E.
  - now constructor.
  - pose proof (split_char_not_nil s c) as Hne.
    destruct (Js.split s (String c "")) as [|f fs]; [easy|].
    rewrite push_front_cons. inversion IH as [|? ? Hf Hfs]; subst.
    constructor; [|exact Hfs]. cbn [has_no]. now rewrite E, Hf.
Qed.

Lemma length_split_char (c : ascii) (s : string) :
  List.length (Js.split s (String c "")) = S (count c s).
Proof.
  induction s as [|a s IH]; [reflexivity|].
  rewrite split_char_cons. cbn [count]. destruct (a =? c)%char.
  - cbn [List.length]. now rewrite IH.
  - rewrite length_push_front by apply split_char_not_nil. now rewrite IH.
Qed.

(** The fields of a line that begins with [DETECTION:]. *)
Lemma split_detection (r : string) :
  Js.split ("DETECTION:" ++ r) ":" = "DETECTION" :: Js.split r ":".
Proof. now apply (split_app_sep ":" "DETECTION" r). Qed.

Lemma split_app_colon (a r : string) :
  has_no ":" a = true ->
  Js.split (a ++ ":" ++ r) ":" = a :: Js.split r ":".
Proof. apply (split_app_sep ":" a r). Qed.

Lemma startsWith_app (p r : string) : Js.startsWith (p ++ r) p = true.
Proof.
  unfold Js.startsWith. induction p as [|a p IH]; [apply prefix_empty|].
  cbn [String.append String.prefix]. now destruct (ascii_dec a a).
Qed.

Lemma app_one_differs {A} (l : list A) (x : A) : (l ++ [x])%list <> l.
Proof.
  intros H. apply (f_equal (@List.length A)) in H.
  rewrite length_app in H. cbn in H. lia.
Qed.

(** A DETECTION line of fewer than 5 fields only adds console lines. *)
Lemma short_detection_only_logs (data : string) (st : state) :
  Js.startsWith data "DETECTION:" = true ->
  List.length (Js.split data ":") < 5 ->
  only_logs st (onmessage data st).
Proof.
  intros Hd Hn. unfold onmessage.
  rewrite (detection_is_not_identity _ Hd), Hd.
  apply Nat.leb_gt in Hn. rewrite Hn. cbv zeta. frames.
Qed.

(** A line that begins with none of the four prefixes. *)
Lemma onmessage_unknown (data : string) (st : state) :
  Js.startsWith data "Your ID: " = false ->
  Js.startsWith data "DETECTION:" = false ->
  Js.startsWith data "PAGE_COUNT:" = false ->
  Js.startsWith data "PAGE_RESULT:" = false ->
  onmessage data st =
  appendChild {| className := ""; innerHTML := data |}
    (set_console (console st ++
                  [Log [VStr "WebSocket message received:"; VStr data];
                   Stamped "WEBSOCKET" [VStr "Received: "; VStr data];
                   Log [VStr "Unknown message type:"; VStr data];
                   Stamped "UNKNOWN" [VStr "Unknown message: "; VStr data]])%list st).
Proof.
  intros H1 H2 H3 H4. unfold onmessage. rewrite H1, H2, H3, H4.
  destruct st. fields. now rewrite <- !app_assoc.
Qed.

End Fields.

(** X1. A line that begins with none of [Your ID: ], [DETECTION:],
    [PAGE_COUNT:] and [PAGE_RESULT:] is appended to the list as it is: one
    new entry with no class whose markup is the whole line, with no escaping.
    The two globals are left alone and four lines go to the console. *)
Theorem X1_unknown_line_appended (data : string) (st : state) :
  Js.startsWith data "Your ID: " = false ->
  Js.startsWith data "DETECTION:" = false ->
  Js.startsWith data "PAGE_COUNT:" = false ->
  Js.startsWith data "PAGE_RESULT:" = false ->
  resultsList (onmessage data st)
  = (resultsList st ++ [{| className := ""; innerHTML := data |}])%list /\
  myId (onmessage data st) = myId st /\
  currentClientId (onmessage data st) = currentClientId st /\
  console (onmessage data st)
  = (console st ++
     [Log [VStr "WebSocket message received:"; VStr data];
      Stamped "WEBSOCKET" [VStr "Received: "; VStr data];
      Log [VStr "Unknown message type:"; VStr data];
      Stamped "UNKNOWN" [VStr "Unknown message: "; VStr data]])%list.
Proof.
  intros H1 H2 H3 H4. rewrite (onmessage_unknown data st H1 H2 H3 H4).
  now fields.
Qed.

Lemma X1_unknown_line_appended_witness :
  resultsList (onmessage "<b>garbage</b> line" Example.st)
  = [{| className := ""; innerHTML := "<b>garbage</b> line" |}] /\
  resultsList (onmessage "detection:abc123:done:0.9:lower case" Example.st)
  = [{| className := ""; innerHTML := "detection:abc123:done:0.9:lower case" |}] /\
  resultsList (onmessage "" Example.st) = [{| className := ""; innerHTML := "" |}].
Proof.
  split; [|split].
  - apply (X1_unknown_line_appended "<b>garbage</b> line" Example.st); reflexivity.
  - apply (X1_unknown_line_appended "detection:abc123:done:0.9:lower case" Example.st);
      reflexivity.
  - apply (X1_unknown_line_appended "" Example.st); reflexivity.
Defined.

(** X2. The parse of a DETECTION line loses nothing: a line of at least 5
    fields is [DETECTION:], the client id, the status, the confidence text
    and the message, with one colon between them. *)
Theorem X2_detection_line_reconstructed (data : string) :
  Js.startsWith data "DETECTION:" = true ->
  5 <= List.length (Js.split data ":") ->
  let parts := Js.split data ":" in
  data = "DETECTION:" ++ nth 1 parts "" ++ ":" ++ nth 2 parts "" ++ ":"
         ++ nth 3 parts "" ++ ":" ++ Js.join (Js.slice parts 4) ":".
Proof.
  intros Hd Hn. cbv zeta.
  pose proof (join_split_char data ":") as J.
  apply prefix_split in Hd as [r Hr].
  pose proof (split_detection r) as S0. rewrite <- Hr in S0.
  destruct (Js.split data ":") as [|p0 [|p1 [|p2 [|p3 [|p4 rest]]]]] eqn:E;
    cbn [List.length] in Hn; try lia.
  injection S0 as -> _.
  rewrite <- J at 1. unfold Js.slice. cbn [nth skipn].
  rewrite !join_cons by discriminate. reflexivity.
Qed.

Lemma X2_detection_line_reconstructed_witness :
  let parts := Js.split "DETECTION:abc123:done:0.97:Looks valid:extra" ":" in
  "DETECTION:abc123:done:0.97:Looks valid:extra"
  = "DETECTION:" ++ nth 1 parts "" ++ ":" ++ nth 2 parts "" ++ ":"
    ++ nth 3 parts "" ++ ":" ++ Js.join (Js.slice parts 4) ":".
Proof.
  apply (X2_detection_line_reconstructed
           "DETECTION:abc123:done:0.97:Looks valid:extra");
    [reflexivity | vm_compute; lia].
Defined.

(** X3. What is put together with colons comes apart the same way: when
    the client id, the status and the confidence text have no colon, the
    line [DETECTION:id:status:confidence:message] splits into these fields,
    the message keeping its own colons, and its dispatch adds the entry of
    the message and reports these very fields. *)
Theorem X3_composed_detection_parsed (clientId status confidence message : string)
    (st : state) :
  has_no ":" clientId = true ->
  has_no ":" status = true ->
  has_no ":" confidence = true ->
  let data := "DETECTION:" ++ clientId ++ ":" ++ status ++ ":" ++ confidence
              ++ ":" ++ message in
  Js.split data ":"
  = "DETECTION" :: clientId :: status :: confidence :: Js.split message ":" /\
  Js.join (Js.slice (Js.split data ":") 4) ":" = message /\
  resultsList (onmessage data st)
  = (resultsList st ++ [{| className := "result-item"; innerHTML := message |}])%list /\
  In (Stamped "DETECTION" [VStr "Client: "; VStr clientId; VStr ", Status: ";
                           VStr status; VStr ", Message: "; VStr message])
     (console (onmessage data st)).
Proof.
  intros Hc Hs Hf. cbv zeta.
  set (data := "DETECTION:" ++ clientId ++ ":" ++ status ++ ":" ++ confidence
               ++ ":" ++ message).
  assert (E : Js.split data ":"
              = "DETECTION" :: clientId :: status :: confidence
                :: Js.split message ":").
  { unfold data. rewrite split_detection.
    rewrite (split_app_colon clientId _ Hc).
    rewrite (split_app_colon status _ Hs).
    rewrite (split_app_colon confidence _ Hf). reflexivity. }
  assert (J : Js.join (Js.slice (Js.split data ":") 4) ":" = message).
  { rewrite E. unfold Js.slice. cbn [skipn]. apply join_split_char. }
  assert (Hd : Js.startsWith data "DETECTION:" = true)
    by apply startsWith_app.
  assert (Hn : 5 <= List.length (Js.split data ":")).
  { rewrite E. cbn [List.length].
    pose proof (split_char_not_nil message ":").
    destruct (Js.split message ":"); [easy|cbn [List.length]; lia]. }
  split; [exact E|]. split; [exact J|]. split.
  - destruct (detection_appends data st Hd Hn) as [-> _]. now rewrite J.
  - unfold onmessage. rewrite (detection_is_not_identity _ Hd), Hd.
    apply Nat.leb_le in Hn. rewrite Hn. cbv zeta. rewrite J, E. cbn [nth].
    apply addDetectionResult_console.
    eapply only_logs_console; [apply updateDetectionUI_only_logs|].
    fields. apply in_or_app. right. now left.
Qed.

Lemma X3_composed_detection_parsed_witness :
  Js.split "DETECTION:abc123:done:0.97:Looks valid: 3 pages" ":"
  = ["DETECTION"; "abc123"; "done"; "0.97"; "Looks valid"; " 3 pages"] /\
  resultsList (onmessage "DETECTION:abc123:done:0.97:Looks valid: 3 pages" Example.st)
  = [{| className := "result-item"; innerHTML := "Looks valid: 3 pages" |}].
Proof.
  destruct (X3_composed_detection_parsed "abc123" "done" "0.97"
              "Looks valid: 3 pages" Example.st eq_refl eq_refl eq_refl)
    as (E & _ & L & _).
  split; [exact E | exact L].
Defined.

(** X4. No field of a line split on [:] has a colon in it, at any index;
    so the client id, the status and the confidence text of a DETECTION line
    never do, and only the message, made of the fields from index 4 on, can. *)
Theorem X4_fields_have_no_colon (data : string) (i : nat) :
  has_no ":" (nth i (Js.split data ":") "") = true.
Proof.
  pose proof (split_fields_have_no ":" data) as F.
  destruct (Nat.lt_ge_cases i (List.length (Js.split data ":"))) as [Hi|Hi].
  - rewrite Forall_forall in F. apply F. now apply nth_In.
  - now rewrite nth_overflow.
Qed.

(** X5. The number of fields is the number of colons plus one, so the guard
    [parts.length >= 5] asks for four colons: a line that begins with
    [DETECTION:] changes the rendered list exactly when it has at least four
    colons, and with fewer it changes nothing but the console. *)
Theorem X5_detection_needs_four_colons (data : string) (st : state) :
  Js.startsWith data "DETECTION:" = true ->
  List.length (Js.split data ":") = S (count ":" data) /\
  (resultsList (onmessage data st) <> resultsList st <-> 4 <= count ":" data) /\
  (count ":" data < 4 -> only_logs st (onmessage data st)).
Proof.
  intros Hd. pose proof (length_split_char ":" data) as L.
  split; [exact L|]. split; [split|].
  - intros Hne.
    destruct (Nat.lt_ge_cases (count ":" data) 4) as [Hlt|Hge]; [|exact Hge].
    exfalso. apply Hne.
    apply (only_logs_fields st (onmessage data st)).
    apply short_detection_only_logs; [exact Hd|]. rewrite L. lia.
  - intros Hge.
    assert (Hn : 5 <= List.length (Js.split data ":")) by (rewrite L; lia).
    destruct (detection_appends data st Hd Hn) as [-> _].
    apply app_one_differs.
  - intros Hlt. apply short_detection_only_logs; [exact Hd|]. rewrite L. lia.
Qed.

Lemma X5_detection_needs_four_colons_witness :
  count ":" "DETECTION:abc123:done:0.5" = 3 /\
  resultsList (onmessage "DETECTION:abc123:done:0.5" Example.st) = [] /\
  count ":" "DETECTION:abc123:done:0.5:" = 4 /\
  resultsList (onmessage "DETECTION:abc123:done:0.5:" Example.st) <> [].
Proof.
  destruct (X5_detection_needs_four_colons "DETECTION:abc123:done:0.5"
              Example.st eq_refl) as (_ & _ & Hshort).
  destruct (X5_detection_needs_four_colons "DETECTION:abc123:done:0.5:"
              Example.st eq_refl) as (_ & [_ Hlong] & _).
  split; [reflexivity|]. split.
  - apply (only_logs_fields Example.st). apply Hshort. vm_compute. lia.
  - split; [reflexivity|]. apply Hlong. vm_compute. lia.
Defined.

(** ** The identity, once more *)

Section IdentityText.

Lemma prefix_app_mono (p q t : string) :
  String.prefix p q = true -> String.prefix p (q ++ t) = true.
Proof.
  revert q; induction p as [|a p IH]; intros q H; [apply prefix_empty|].
  destruct q as [|b q]; [discriminate|].
  cbn [String.append String.prefix] in *.
  destruct (ascii_dec a b); [now apply IH|discriminate].
Qed.

Lemma before_first_cons (sep : string) (a : ascii) (s : string) :
  String.prefix sep (String a s) = false ->
  Spec.before_first sep (String a s) = String a (Spec.before_first sep s).
Proof.
  intros H. unfold Spec.before_first. cbn [String.index]. rewrite H.
  now destruct (String.index 0 sep s).
Qed.

Lemma before_first_here (sep : string) (s : string) :
  String.prefix sep s = true -> Spec.before_first sep s = "".
Proof.
  intros H. unfold Spec.before_first. destruct s as [|a s].
  - cbn. now destruct sep.
  - cbn [String.index]. now rewrite H.
Qed.

(** [s] is what comes before the first separator, and then nothing or a
    text that begins with the separator. *)
Lemma before_first_split (sep s : string) :
  exists t, s = Spec.before_first sep s ++ t /\
            (t = "" \/ String.prefix sep t = true).
Proof.
  induction s as [|a s (t & E & Ht)].
  - exists "". split; [|now left]. unfold Spec.before_first. cbn.
    now destruct sep.
  - destruct (String.prefix sep (String a s)) eqn:P.
    + exists (String a s). rewrite (before_first_here _ _ P).
      split; [reflexivity|now right].
    + exists t. rewrite (before_first_cons _ _ _ P). cbn [String.append].
      split; [now rewrite <- E|exact Ht].
Qed.

Lemma before_first_has_none (sep s : string) :
  sep <> "" -> String.index 0 sep (Spec.before_first sep s) = None.
Proof.
  intros Hsep. induction s as [|a s IH].
  - unfold Spec.before_first. cbn. now destruct sep.
  - destruct (String.prefix sep (String a s)) eqn:P.
    + rewrite (before_first_here _ _ P). now destruct sep.
    + rewrite (before_first_cons _ _ _ P). cbn [String.index]. rewrite IH.
      destruct (String.prefix sep (String a (Spec.before_first sep s))) eqn:Q;
        [|reflexivity].
      destruct (before_first_split sep s) as (t & E & _).
      apply (prefix_app_mono _ _ t) in Q. cbn [String.append] in Q.
      rewrite <- E in Q. congruence.
Qed.

Lemma onmessage_identity_myId (rest : string) (st : state) :
  myId (onmessage ("Your ID: " ++ rest) st) = Some (Spec.before_first ": " rest).
Proof.
  unfold onmessage. rewrite startsWith_app, split_identity.
  change (nth_error ("Your ID" :: Js.split_from ": " 0 rest) 1)
    with (nth_error (Js.split_from ": " 0 rest) 0).
  now rewrite first_field.
Qed.

End IdentityText.

(** X6. After a line that begins with [Your ID: ] the Session Identity is
    always a string, never [undefined]; it has no [: ] in it, and the line
    is the prefix, the identity, and then nothing or a text that begins with
    [: ] and is dropped. An empty remainder gives the empty identity. *)
Theorem X6_identity_has_no_separator (data : string) (st : state) :
  Js.startsWith data "Your ID: " = true ->
  exists id dropped,
    myId (onmessage data st) = Some id /\
    String.index 0 ": " id = None /\
    data = "Your ID: " ++ id ++ dropped /\
    (dropped = "" \/ Js.startsWith dropped ": " = true).
Proof.
  intros H. apply prefix_split in H as [rest ->].
  destruct (before_first_split ": " rest) as (t & E & Ht).
  exists (Spec.before_first ": " rest), t.
  split; [apply onmessage_identity_myId|].
  split; [now apply before_first_has_none|].
  split; [now rewrite <- E | exact Ht].
Qed.

Lemma X6_identity_has_no_separator_witness :
  exists id dropped,
    myId (onmessage "Your ID: " Example.st) = Some id /\
    String.index 0 ": " id = None /\
    "Your ID: " = "Your ID: " ++ id ++ dropped.
Proof.
  destruct (X6_identity_has_no_separator "Your ID: " Example.st eq_refl)
    as (id & dropped & H1 & H2 & H3 & _).
  exists id, dropped. now repeat split.
Defined.

(** ** What each handler leaves alone *)

Section Untouched.

Lemma onmessage_upload_state (data : string) (st : state) :
  currentClientId (onmessage data st) = currentClientId st /\
  uploadBtn (onmessage data st) = uploadBtn st /\
  alerts (onmessage data st) = alerts st /\
  requests (onmessage data st) = requests st.
Proof.
  unfold onmessage, addDetectionResult, updateDetectionUI. cbv zeta.
  repeat match goal with
         | |- context [if ?b then _ else _] => destruct b
         end; repeat split; reflexivity.
Qed.

Lemma onmessage_myId (data : string) (st : state) :
  Js.startsWith data "Your ID: " = false ->
  myId (onmessage data st) = myId st.
Proof.
  intros H. unfold onmessage, addDetectionResult, updateDetectionUI.
  rewrite H. cbv zeta.
  repeat match goal with
         | |- context [if ?b then _ else _] => destruct b
         end; reflexivity.
Qed.

Lemma substring_after_nth_tail (c : ascii) (n : nat) (s t : string) :
  Spec.substring_after_nth c n s = Some t -> exists pre, s = pre ++ t.
Proof.
  revert n; induction s as [|a s IH]; intros [|n] H; cbn in H.
  - injection H as <-. now exists "".
  - discriminate.
  - injection H as <-. now exists "".
  - destruct (a =? c)%char;
      destruct (IH _ H) as [pre ->]; now exists (String a pre).
Qed.

(** What one message does to the list: nothing, or one entry at the end
    whose markup is a tail of the line. *)
Lemma onmessage_list (data : string) (st : state) :
  resultsList (onmessage data st) = resultsList st \/
  exists el pre,
    resultsList (onmessage data st) = (resultsList st ++ [el])%list /\
    data = pre ++ innerHTML el.
Proof.
  destruct (Js.startsWith data "Your ID: ") eqn:H1.
  { left. unfold onmessage. now rewrite H1. }
  destruct (Js.startsWith data "DETECTION:") eqn:H2.
  { destruct (Nat.lt_ge_cases (List.length (Js.split data ":")) 5) as [Hn|Hn].
    - left. apply (only_logs_fields st).
      now apply short_detection_only_logs.
    - right. destruct (detection_appends data st H2 Hn) as [-> _].
      destruct (substring_after_nth_tail ":" 4 data _
                  (join_slice_split_char ":" data 4 Hn)) as [pre E].
      eexists. exists pre. split; [reflexivity|exact E]. }
  destruct (Js.startsWith data "PAGE_COUNT:") eqn:H3.
  { left. apply (only_logs_fields st). now apply onmessage_page_count. }
  destruct (Js.startsWith data "PAGE_RESULT:") eqn:H4.
  { left. apply (only_logs_fields st). now apply onmessage_page_result. }
  right. rewrite (onmessage_unknown data st H1 H2 H3 H4).
  eexists. exists "". split; reflexivity.
Qed.

End Untouched.

Section Pages.

Lemma onmessage_console (data : string) (st : state) :
  exists more,
    console (onmessage data st)
    = (console st ++ Log [VStr "WebSocket message received:"; VStr data]
         :: Stamped "WEBSOCKET" [VStr "Received: "; VStr data] :: more)%list.
Proof.
  unfold onmessage, addDetectionResult, updateDetectionUI. cbv zeta.
  repeat match goal with
         | |- context [if ?b then _ else _] => destruct b
         end;
    destruct st; fields; eexists; rewrite <- ?app_assoc; cbn [app];
    reflexivity.
Qed.

Ltac grows :=
  cbv [onopen onerror onclose on_catch]; eexists; split;
  [ | fields; rewrite <- ?app_assoc; reflexivity ]; discriminate.

Lemma step_console (p p' : page) (e : event) :
  step p e = Some p' ->
  exists lines, lines <> [] /\ console (dom p') = (console (dom p) ++ lines)%list.
Proof.
  destruct p as [st w]. unfold step. cbn [dom pending]. intros H.
  destruct e as [data| |m|code reason|selected x|o|o].
  - injection H as <-. cbn [dom].
    destruct (onmessage_console data st) as [more ->].
    eexists. split; [|reflexivity]. discriminate.
  - injection H as <-. destruct st. grows.
  - injection H as <-. destruct st. grows.
  - injection H as <-. destruct st. grows.
  - destruct w as [[c|c]|]; try discriminate.
    destruct (disabled (uploadBtn st)); [discriminate|].
    destruct selected; cbn in H; injection H as <-; destruct st; grows.
  - destruct w as [[c|c]|]; try discriminate.
    destruct o as [e|status]; cbn [resume_fetch] in H.
    + injection H as <-. unfold on_catch. destruct st. grows.
    + destruct (ok status); cbn [negb] in H; injection H as <-;
        unfold on_catch; destruct st; grows.
  - destruct w as [[c|c]|]; try discriminate.
    injection H as <-. cbn [dom].
    destruct o as [e| |r]; cbn [resume_json]; unfold on_catch.
    + destruct st. grows.
    + destruct st. grows.
    + destruct (truthy (reply_error r));
        [destruct (reply_supported_types r)|]; destruct st; grows.
Qed.

Lemma upload_steps_keep_myId (p p' : page) (e : event) :
  socket_event e = false -> step p e = Some p' -> myId (dom p') = myId (dom p).
Proof.
  destruct p as [st w]. unfold step. cbn [dom pending]. intros He H.
  destruct e as [data| |m|code reason|selected x|o|o]; try discriminate.
  - destruct w as [[c|c]|]; try discriminate.
    destruct (disabled (uploadBtn st)); [discriminate|].
    destruct selected; cbn in H; now injection H as <-.
  - destruct w as [[c|c]|]; try discriminate.
    destruct o as [e|status]; cbn [resume_fetch] in H.
    + now injection H as <-.
    + destruct (ok status); cbn [negb] in H; now injection H as <-.
  - destruct w as [[c|c]|]; try discriminate.
    injection H as <-. cbn [dom].
    destruct o as [e| |r]; cbn [resume_json]; try reflexivity.
    destruct (truthy (reply_error r));
      [destruct (reply_supported_types r)|]; reflexivity.
Qed.

End Pages.

(** X7. A socket event can always be handled, whether or not an upload is
    in flight, and it leaves the upload's side of the page alone: the waiting
    handler, the Active Upload Client Id, the button, the alerts and the
    requests sent are the same after a message, an open, an error or a
    close. *)
Theorem X7_socket_events_keep_upload_state (p : page) (e : event) :
  socket_event e = true ->
  exists p',
    step p e = Some p' /\
    pending p' = pending p /\
    currentClientId (dom p') = currentClientId (dom p) /\
    uploadBtn (dom p') = uploadBtn (dom p) /\
    alerts (dom p') = alerts (dom p) /\
    requests (dom p') = requests (dom p).
Proof.
  destruct e as [data| |m|code reason|selected x|o|o]; try discriminate;
    intros _; eexists; (split; [reflexivity|]); cbn [dom pending];
    try (now repeat split).
  split; [reflexivity|]. apply onmessage_upload_state.
Qed.

Lemma X7_socket_events_keep_upload_state_witness :
  let busy := {| dom := set_uploadBtn uploading Example.st;
                 pending := Some (AwaitFetch "client_4fzyo82m") |} in
  exists p',
    step busy (Message "DETECTION:client_4fzyo82m:done:0.9:first page") = Some p' /\
    pending p' = Some (AwaitFetch "client_4fzyo82m") /\
    currentClientId (dom p') = Some "abc123" /\
    uploadBtn (dom p') = uploading.
Proof.
  cbv zeta.
  destruct (X7_socket_events_keep_upload_state
              {| dom := set_uploadBtn uploading Example.st;
                 pending := Some (AwaitFetch "client_4fzyo82m") |}
              (Message "DETECTION:client_4fzyo82m:done:0.9:first page") eq_refl)
    as (p' & H & Hw & Hc & Hb & _).
  exists p'. split; [exact H|]. split; [exact Hw|]. split; [exact Hc|exact Hb].
Defined.

(** X8. The Session Identity is written by identity lines and by nothing
    else: every step of the page that is not the dispatch of a line
    beginning with [Your ID: ], the upload handler's steps included, leaves
    it as it is. *)
Theorem X8_identity_changed_by_identity_lines_only (p p' : page) (e : event) :
  step p e = Some p' ->
  (forall data, e = Message data -> Js.startsWith data "Your ID: " = false) ->
  myId (dom p') = myId (dom p).
Proof.
  intros H He. destruct (socket_event e) eqn:S.
  - destruct e as [data| |m|code reason|selected x|o|o]; try discriminate;
      cbn in H; injection H as <-; cbn [dom]; try reflexivity.
    apply onmessage_myId. now apply He.
  - now apply (upload_steps_keep_myId p p' e).
Qed.

Lemma X8_identity_changed_by_identity_lines_only_witness :
  let known := {| dom := set_myId (Some "sess-42") Example.st; pending := None |} in
  (exists p', step known (Message "Your  ID: sess-43") = Some p' /\
              myId (dom p') = Some "sess-42") /\
  (exists p', step known (Click (Some Example.report) Example.x) = Some p' /\
              myId (dom p') = Some "sess-42").
Proof.
  cbv zeta. split; eexists; (split; [reflexivity|]).
  - eapply (X8_identity_changed_by_identity_lines_only
              {| dom := set_myId (Some "sess-42") Example.st; pending := None |} _
              (Message "Your  ID: sess-43"));
      [reflexivity | intros data E; injection E as <-; reflexivity].
  - eapply (X8_identity_changed_by_identity_lines_only
              {| dom := set_myId (Some "sess-42") Example.st; pending := None |} _
              (Click (Some Example.report) Example.x));
      [reflexivity | intros data E; discriminate E].
Defined.

(** X9. Socket events only ever add to the rendered list, and one entry at
    a time: after one, the list is the one before, or the one before with one
    entry at the end, and then the event is a message whose line ends with
    the markup of that entry. No socket event removes or rewrites an entry. *)
Theorem X9_socket_events_append_tails (p p' : page) (e : event) :
  socket_event e = true ->
  step p e = Some p' ->
  resultsList (dom p') = resultsList (dom p) \/
  exists data el pre,
    e = Message data /\
    resultsList (dom p') = (resultsList (dom p) ++ [el])%list /\
    data = pre ++ innerHTML el.
Proof.
  intros S H.
  destruct e as [data| |m|code reason|selected x|o|o]; try discriminate;
    cbn in H; injection H as <-; cbn [dom]; try (now left).
  destruct (onmessage_list data (dom p)) as [E|(el & pre & E & T)];
    [now left|].
  right. exists data, el, pre. now repeat split.
Qed.

Lemma X9_socket_events_append_tails_witness :
  let p := {| dom := set_resultsList [{| className := ""; innerHTML := "kept" |}]
                       Example.st;
              pending := None |} in
  exists p',
    step p (Message "DETECTION:xyz999:done:0.5:a:b") = Some p' /\
    (resultsList (dom p') = [{| className := ""; innerHTML := "kept" |}] \/
     exists data el pre,
       Message "DETECTION:xyz999:done:0.5:a:b" = Message data /\
       resultsList (dom p')
       = ([{| className := ""; innerHTML := "kept" |}] ++ [el])%list /\
       data = pre ++ innerHTML el).
Proof.
  cbv zeta. eexists. split; [reflexivity|].
  eapply (X9_socket_events_append_tails
            {| dom := set_resultsList [{| className := ""; innerHTML := "kept" |}]
                        Example.st;
               pending := None |} _
            (Message "DETECTION:xyz999:done:0.5:a:b"));
    reflexivity.
Defined.

(** X10. The console only grows, and every task leaves a trace: each step
    of the page adds at least one line at the end of the console and changes
    none that is there; the dispatch of a message begins with the line as it
    was received, logged twice, whatever the line is. *)
Theorem X10_console_grows (p p' : page) (e : event) :
  step p e = Some p' ->
  (exists lines,
      lines <> [] /\ console (dom p') = (console (dom p) ++ lines)%list) /\
  (forall data, e = Message data ->
     exists more,
       console (dom p')
       = (console (dom p) ++ Log [VStr "WebSocket message received:"; VStr data]
            :: Stamped "WEBSOCKET" [VStr "Received: "; VStr data] :: more)%list).
Proof.
  intros H. split; [now apply (step_console p p' e)|].
  intros data ->. cbn in H. injection H as <-. cbn [dom].
  apply onmessage_console.
Qed.

Lemma X10_console_grows_witness :
  exists p' lines,
    step Example.idle (Fetched (FetchResolves 200)) = None /\
    step Example.idle (Message "") = Some p' /\
    lines <> [] /\
    console (dom p') = (console Example.st ++ lines)%list.
Proof.
  destruct (X10_console_grows Example.idle
              {| dom := onmessage "" Example.st; pending := None |}
              (Message "") eq_refl) as [(lines & Hne & E) _].
  exists {| dom := onmessage "" Example.st; pending := None |}, lines.
  split; [reflexivity|]. split; [reflexivity|]. split; [exact Hne|exact E].
Defined.

(** ** The upload handler, step by step *)

Section UploadSteps.

Lemma step_requests (p p' : page) (e : event) :
  step p e = Some p' ->
  requests (dom p') =
  (requests (dom p) ++
   match e with
   | Click (Some f) x => [[("file", VFile f); ("client_id", VStr (generateClientId x))]]
   | _ => []
   end)%list.
Proof.
  destruct p as [st w]. unfold step. cbn [dom pending]. intros H.
  destruct e as [data| |m|code reason|selected x|o|o].
  - injection H as <-. cbn [dom]. rewrite app_nil_r.
    apply onmessage_upload_state.
  - injection H as <-. cbn. now rewrite app_nil_r.
  - injection H as <-. cbn. now rewrite app_nil_r.
  - injection H as <-. cbn. now rewrite app_nil_r.
  - destruct w as [[c|c]|]; try discriminate.
    destruct (disabled (uploadBtn st)); [discriminate|].
    destruct selected; cbn in H; injection H as <-; cbn [dom];
      [reflexivity | now rewrite app_nil_r].
  - destruct w as [[c|c]|]; try discriminate. rewrite app_nil_r.
    destruct o as [e|status]; cbn [resume_fetch] in H.
    + now injection H as <-.
    + destruct (ok status); cbn [negb] in H; now injection H as <-.
  - destruct w as [[c|c]|]; try discriminate.
    injection H as <-. cbn [dom]. rewrite app_nil_r.
    destruct o as [e| |r]; cbn [resume_json]; try reflexivity.
    destruct (truthy (reply_error r));
      [destruct (reply_supported_types r)|]; reflexivity.
Qed.

Lemma step_button (p p' : page) (e : event) :
  step p e = Some p' ->
  pending p <> None ->
  match pending p' with
  | None => uploadBtn (dom p') = {| disabled := false; textContent := "Upload & Analyze" |}
  | Some _ => uploadBtn (dom p') = uploadBtn (dom p)
  end.
Proof.
  destruct p as [st w]. unfold step. cbn [dom pending]. intros H Hw.
  destruct e as [data| |m|code reason|selected x|o|o].
  - injection H as <-. cbn [dom pending]. destruct w; [|easy].
    apply onmessage_upload_state.
  - injection H as <-. cbn [dom pending]. now destruct w.
  - injection H as <-. cbn [dom pending]. now destruct w.
  - injection H as <-. cbn [dom pending]. now destruct w.
  - destruct w as [[c|c]|]; try discriminate. easy.
  - destruct w as [[c|c]|]; try discriminate.
    destruct o as [e|status]; cbn [resume_fetch] in H.
    + now injection H as <-.
    + destruct (ok status); cbn [negb] in H; now injection H as <-.
  - destruct w as [[c|c]|]; try discriminate.
    injection H as <-. cbn [dom pending].
    destruct o as [e| |r]; cbn [resume_json]; try reflexivity.
    destruct (truthy (reply_error r));
      [destruct (reply_supported_types r)|]; reflexivity.
Qed.

Lemma step_waiting_shows_uploading (p p' : page) (e : event) :
  step p e = Some p' -> waiting_shows_uploading p -> waiting_shows_uploading p'.
Proof.
  unfold waiting_shows_uploading. intros H Inv Hw'.
  destruct (pending p) as [w|] eqn:W.
  - pose proof (step_button p p' e H) as B. rewrite W in B.
    destruct (pending p'); [|easy].
    rewrite B by discriminate. apply Inv. discriminate.
  - destruct p as [st w0]. cbn [pending] in W. subst w0.
    unfold step in H. cbn [dom pending] in *.
    destruct e as [data| |m|code reason|selected x|o|o]; try discriminate;
      try (injection H as <-; now cbn [pending] in Hw').
    destruct (disabled (uploadBtn st)); [discriminate|].
    destruct selected; cbn in H; injection H as <-; [reflexivity|easy].
Qed.

Lemma run_waiting_shows_uploading (es : list event) (p p' : page) :
  run p es = Some p' -> waiting_shows_uploading p -> waiting_shows_uploading p'.
Proof.
  revert p; induction es as [|e es IH]; intros p H Inv.
  - now injection H as <-.
  - cbn [run] in H. destruct (step p e) as [q|] eqn:E; [|discriminate].
    apply (IH q H). now apply (step_waiting_shows_uploading p q e).
Qed.

End UploadSteps.

(** X11. The page sends one upload request for each upload that begins and
    none otherwise: a click with a file selected adds one request, made of
    the file and of the client id just generated, the same id the waiting
    handler keeps for the Active Upload Client Id; a click with no file and
    every other step add none, and no request is ever taken back. *)
Theorem X11_one_request_per_upload (p p' : page) (e : event) :
  step p e = Some p' ->
  requests (dom p') =
  (requests (dom p) ++
   match e with
   | Click (Some f) x => [[("file", VFile f); ("client_id", VStr (generateClientId x))]]
   | _ => []
   end)%list /\
  (forall f x, e = Click (Some f) x ->
     pending p' = Some (AwaitFetch (generateClientId x))).
Proof.
  intros H. split; [now apply step_requests|].
  intros f x ->. unfold step in H.
  destruct (pending p) as [[c|c]|]; try discriminate.
  destruct (disabled (uploadBtn (dom p))); [discriminate|].
  cbn in H. now injection H as <-.
Qed.

Lemma X11_one_request_per_upload_witness :
  (exists p', step Example.idle (Click (Some Example.report) Example.x) = Some p' /\
              requests (dom p') = [[("file", VFile Example.report);
                                    ("client_id", VStr "client_4fzyo82m")]]) /\
  (exists p', step Example.idle (Click None Example.x) = Some p' /\
              requests (dom p') = []).
Proof.
  split; eexists; (split; [reflexivity|]).
  - apply (X11_one_request_per_upload Example.idle _
             (Click (Some Example.report) Example.x) eq_refl).
  - apply (X11_one_request_per_upload Example.idle _
             (Click None Example.x) eq_refl).
Defined.

(** X12. However the upload handler ends once it has begun to wait, on
    success, on a rejected [fetch], on a status that is not a success, on a
    body that cannot be read or on a reply with an error, it leaves the
    button enabled and labelled [Upload & Analyze]; as long as it goes on
    waiting, no step touches the button. *)
Theorem X12_button_ready_when_handler_ends (p p' : page) (e : event) :
  step p e = Some p' ->
  pending p <> None ->
  match pending p' with
  | None => uploadBtn (dom p') = {| disabled := false; textContent := "Upload & Analyze" |}
  | Some _ => uploadBtn (dom p') = uploadBtn (dom p)
  end.
Proof. apply step_button. Qed.

Lemma X12_button_ready_when_handler_ends_witness :
  let busy := {| dom := set_uploadBtn uploading Example.st;
                 pending := Some (AwaitJson "client_4fzyo82m") |} in
  (exists p', step busy (Parsed (JsonResolves Example.refused)) = Some p' /\
              uploadBtn (dom p') = Example.ready) /\
  (exists p', step busy (Parsed JsonNull) = Some p' /\
              uploadBtn (dom p') = Example.ready).
Proof.
  cbv zeta. split; eexists; (split; [reflexivity|]).
  - apply (X12_button_ready_when_handler_ends
             {| dom := set_uploadBtn uploading Example.st;
                pending := Some (AwaitJson "client_4fzyo82m") |} _
             (Parsed (JsonResolves Example.refused)) eq_refl).
    discriminate.
  - apply (X12_button_ready_when_handler_ends
             {| dom := set_uploadBtn uploading Example.st;
                pending := Some (AwaitJson "client_4fzyo82m") |} _
             (Parsed JsonNull) eq_refl).
    discriminate.
Defined.

(** X13. From a page where no handler waits, whatever events follow, a
    waiting handler always finds the button disabled and labelled
    [Uploading...]: the button is disabled before the first [await] and
    nothing enables it before the handler ends, so that a second upload
    cannot begin while one is in flight. *)
Theorem X13_button_disabled_while_waiting (p p' : page) (es : list event) :
  pending p = None ->
  run p es = Some p' ->
  pending p' <> None ->
  uploadBtn (dom p') = uploading /\
  forall selected x, step p' (Click selected x) = None.
Proof.
  intros Hp H Hw.
  assert (B : uploadBtn (dom p') = uploading).
  { apply (run_waiting_shows_uploading es p p' H); [|exact Hw].
    intros Hc. now rewrite Hp in Hc. }
  split; [exact B|]. intros selected x. unfold step.
  destruct (pending p') as [[c|c]|]; try reflexivity. easy.
Qed.

Lemma X13_button_disabled_while_waiting_witness :
  exists p',
    run Example.idle [Click (Some Example.report) Example.x;
                      Message "Your ID: sess-42";
                      Fetched (FetchResolves 201)] = Some p' /\
    pending p' = Some (AwaitJson "client_4fzyo82m") /\
    uploadBtn (dom p') = uploading.
Proof.
  eexists. split; [reflexivity|]. split; [reflexivity|].
  eapply (X13_button_disabled_while_waiting Example.idle _
            [Click (Some Example.report) Example.x;
             Message "Your ID: sess-42";
             Fetched (FetchResolves 201)]);
    [reflexivity | reflexivity | discriminate].
Defined.

(** X14. Every way the upload handler ends short of success shows exactly
    one alert, and success shows none: a step of the handler after which it
    still waits adds no alert; a step that ends it either is the reply with
    no truthy [error], with no alert, or adds one alert, which asks for a
    file, reports the message of what was thrown, or reports the server's
    error with the supported types joined by a comma and a space. *)
Theorem X14_one_alert_per_failure (p p' : page) (e : event) :
  step p e = Some p' ->
  socket_event e = false ->
  match pending p' with
  | Some _ => alerts (dom p') = alerts (dom p)
  | None =>
      (alerts (dom p') = alerts (dom p) /\
       exists r, e = Parsed (JsonResolves r) /\ truthy (reply_error r) = false) \/
      (exists a,
          alerts (dom p') = (alerts (dom p) ++ [a])%list /\
          (a = [VStr "Please select a file first"] \/
           (exists err, a = [VStr "Error uploading file: "; VMessage err]) \/
           (exists r types,
               e = Parsed (JsonResolves r) /\
               reply_supported_types r = Some types /\
               a = [VStr "Error: "; VId (reply_error r);
                    VStr (newline ++ "Supported types: ");
                    VStr (Js.join types ", ")])))
  end.
Proof.
  destruct p as [st w]. unfold step. cbn [dom pending]. intros H S.
  destruct e as [data| |m|code reason|selected x|o|o]; try discriminate.
  - destruct w as [[c|c]|]; try discriminate.
    destruct (disabled (uploadBtn st)); [discriminate|].
    destruct selected; cbn in H; injection H as <-; cbn [pending dom];
      [reflexivity|].
    right. eexists. split; [reflexivity|]. now left.
  - destruct w as [[c|c]|]; try discriminate.
    destruct o as [err|status]; cbn [resume_fetch] in H.
    + injection H as <-. cbn [pending dom]. right.
      eexists. split; [reflexivity|]. right. left. now exists err.
    + destruct (ok status); cbn [negb] in H; injection H as <-;
        cbn [pending dom]; [reflexivity|].
      right. eexists. split; [reflexivity|]. right. left.
      now exists (Error "Upload failed").
  - destruct w as [[c|c]|]; try discriminate.
    injection H as <-. cbn [pending dom].
    destruct o as [err| |r]; cbn [resume_json].
    + right. eexists. split; [reflexivity|]. right. left. now exists err.
    + right. eexists. split; [reflexivity|]. right. left. now exists TypeError.
    + destruct (truthy (reply_error r)) eqn:T.
      * destruct (reply_supported_types r) as [types|] eqn:Ty.
        -- right. eexists. split; [reflexivity|]. right. right.
           exists r, types. now repeat split.
        -- right. eexists. split; [reflexivity|]. right. left.
           now exists TypeError.
      * left. split; [reflexivity|]. now exists r.
Qed.

Lemma X14_one_alert_per_failure_witness :
  let busy := {| dom := set_uploadBtn uploading Example.st;
                 pending := Some (AwaitJson "client_4fzyo82m") |} in
  exists p',
    step busy (Parsed (JsonResolves Example.refused)) = Some p' /\
    alerts (dom p')
    = [[VStr "Error: "; VStr "Unsupported file type";
        VStr (newline ++ "Supported types: "); VStr "pdf, png"]].
Proof.
  cbv zeta. eexists. split; [reflexivity|].
  pose proof (X14_one_alert_per_failure
                {| dom := set_uploadBtn uploading Example.st;
                   pending := Some (AwaitJson "client_4fzyo82m") |} _
                (Parsed (JsonResolves Example.refused)) eq_refl eq_refl) as H.
  cbn [pending] in H. destruct H as [[H _]|(a & H & _)]; exact eq_refl.
Defined.

(** ** The client id on the wire *)

Section ClientIdText.

Lemma base36_is_no_colon (s : string) :
  Spec.all_base36 s = true -> has_no ":" s = true.
Proof.
  induction s as [|c s IH]; [reflexivity|]. cbn [Spec.all_base36 has_no].
  intros H. apply andb_true_iff in H as [Hc Hs]. rewrite (IH Hs).
  destruct (Ascii.eqb_spec c ":") as [->|]; [discriminate Hc|reflexivity].
Qed.

Lemma client_id_has_no_colon (x : random) :
  has_no ":" (generateClientId x) = true.
Proof.
  unfold generateClientId. rewrite substr_toString36.
  cbn [String.append has_no Ascii.eqb Bool.eqb negb andb].
  apply base36_is_no_colon. destruct x as [|d ds]; [reflexivity|].
  apply all_base36_substring_0, all_base36_digits.
Qed.

Lemma substring_0_of_list (n : nat) (l : list ascii) :
  String.substring 0 n (string_of_list_ascii l) = string_of_list_ascii (firstn n l).
Proof.
  revert n; induction l as [|c l IH]; intros [|n]; try reflexivity.
  cbn [string_of_list_ascii String.substring firstn]. now rewrite IH.
Qed.

Lemma string_of_list_ascii_inj (l1 l2 : list ascii) :
  string_of_list_ascii l1 = string_of_list_ascii l2 -> l1 = l2.
Proof.
  intros H. apply (f_equal list_ascii_of_string) in H.
  now rewrite !list_ascii_of_string_of_list_ascii in H.
Qed.

Lemma digit_char_value (d1 d2 : digit36) :
  digit_char d1 = digit_char d2 <-> digit_value d1 = digit_value d2.
Proof.
  destruct d1 as [v1 H1], d2 as [v2 H2]. unfold digit_char. cbn [digit_value].
  pose proof H1 as L1. pose proof H2 as L2.
  apply Nat.ltb_lt in L1, L2. split.
  - intros E. apply (f_equal nat_of_ascii) in E.
    destruct (v1 <? 10)%nat eqn:T1, (v2 <? 10)%nat eqn:T2;
      rewrite !nat_ascii_embedding in E by lia;
      try apply Nat.ltb_lt in T1; try apply Nat.ltb_lt in T2;
      try apply Nat.ltb_ge in T1; try apply Nat.ltb_ge in T2; lia.
  - now intros ->.
Qed.

Lemma map_digit_char_value (l1 l2 : list digit36) :
  map digit_char l1 = map digit_char l2 <-> map digit_value l1 = map digit_value l2.
Proof.
  revert l2; induction l1 as [|d1 l1 IH]; intros [|d2 l2]; cbn [map];
    try (split; [reflexivity|reflexivity]); try (split; discriminate).
  split; intros E; injection E as E1 E2; f_equal;
    try (now apply digit_char_value); now apply IH.
Qed.

(** The identifier, from the digits it keeps. *)
Lemma generateClientId_digits (x : random) :
  generateClientId x =
  "client_" ++ string_of_list_ascii
                 (match x with
                  | Zero => []
                  | Fraction d ds => map digit_char (firstn 8 (d :: ds))
                  end).
Proof.
  unfold generateClientId. rewrite substr_toString36.
  destruct x as [|d ds]; [reflexivity|].
  now rewrite substring_0_of_list, firstn_map.
Qed.

End ClientIdText.

(** X15. A generated client id never has a colon in it, so on a DETECTION
    line it is one field: whatever follows it, the line
    [DETECTION:id:...] has the generated id, whole, as its field 1. *)
Theorem X15_client_id_is_one_field (x : random) (rest : string) :
  has_no ":" (generateClientId x) = true /\
  nth 1 (Js.split ("DETECTION:" ++ generateClientId x ++ ":" ++ rest) ":") ""
  = generateClientId x.
Proof.
  pose proof (client_id_has_no_colon x) as H. split; [exact H|].
  now rewrite split_detection, (split_app_colon _ _ H).
Qed.

(** X16. Two random values give the same client id exactly when the
    numerals of the two agree on the fractional digits the id keeps, the
    first 8 or all of them when there are fewer; in particular every value
    whose numeral begins with the same 8 digits gets the same id. *)
Theorem X16_same_id_same_leading_digits (x y : random) :
  generateClientId x = generateClientId y <-> leading x = leading y.
Proof.
  rewrite !generateClientId_digits. unfold leading. split.
  - intros E. cbn [String.append] in E. injection E as E.
    apply string_of_list_ascii_inj in E.
    destruct x as [|d ds], y as [|d' ds']; try reflexivity;
      try (cbn in E; discriminate E).
    rewrite !firstn_map. now apply map_digit_char_value.
  - intros E. f_equal. f_equal.
    destruct x as [|d ds], y as [|d' ds']; try reflexivity;
      try (cbn in E; discriminate E).
    rewrite !firstn_map in E. now apply map_digit_char_value.
Qed.

(** ** An upload and its first result *)

Section FirstResult.

Lemma updateDetectionUI_matches (clientId status : string) (confidence : number)
    (message : string) (st : state) :
  currentClientId st = Some clientId ->
  In (Stamped "UI_FUNCTION" [VStr "Client ID matches - processing updateDetectionUI"])
     (console (updateDetectionUI clientId status confidence message st)).
Proof.
  intros H. unfold updateDetectionUI. cbv zeta.
  replace (currentClientId
             (addLog "UI_FUNCTION"
                [VStr "updateDetectionUI: "; VStr clientId; VStr " vs ";
                 VId (currentClientId
                        (console_log
                           [VStr " updateDetectionUI called:";
                            VObj [("clientId", VStr clientId);
                                  ("currentClientId", VId (currentClientId st));
                                  ("status", VStr status);
                                  ("message", VStr message)]] st))]
                (console_log
                   [VStr " updateDetectionUI called:";
                    VObj [("clientId", VStr clientId);
                          ("currentClientId", VId (currentClientId st));
                          ("status", VStr status);
                          ("message", VStr message)]] st)))
    with (Some clientId) by (now rewrite <- H).
  rewrite String.eqb_refl. cbn [negb]. fields.
  apply in_or_app. right. now left.
Qed.

(** The dispatch of a line put together from colon-free fields. *)
Lemma composed_detection (clientId status confidence message : string) (st : state) :
  has_no ":" clientId = true ->
  has_no ":" status = true ->
  has_no ":" confidence = true ->
  exists st1,
    only_logs st st1 /\
    onmessage ("DETECTION:" ++ clientId ++ ":" ++ status ++ ":" ++ confidence
               ++ ":" ++ message) st
    = addDetectionResult clientId status (Num.parseFloat confidence) message
        (updateDetectionUI clientId status (Num.parseFloat confidence) message st1).
Proof.
  intros Hc Hs Hf.
  set (data := "DETECTION:" ++ clientId ++ ":" ++ status ++ ":" ++ confidence
               ++ ":" ++ message).
  assert (E : Js.split data ":"
              = "DETECTION" :: clientId :: status :: confidence
                :: Js.split message ":").
  { unfold data. rewrite split_detection.
    rewrite (split_app_colon clientId _ Hc).
    rewrite (split_app_colon status _ Hs).
    rewrite (split_app_colon confidence _ Hf). reflexivity. }
  assert (Hd : Js.startsWith data "DETECTION:" = true)
    by apply startsWith_app.
  assert (Hn : 5 <= List.length (Js.split data ":")).
  { rewrite E. cbn [List.length].
    pose proof (split_char_not_nil message ":").
    destruct (Js.split message ":"); [easy|cbn [List.length]; lia]. }
  destruct (onmessage_detection data st Hd Hn) as (st1 & H1 & _ & Eq).
  exists st1. split; [exact H1|].
  rewrite Eq, E. unfold Js.slice. cbn [nth skipn].
  now rewrite join_split_char.
Qed.

End FirstResult.

(** X17. An upload and its first result, end to end: when an upload
    succeeds, whatever socket events are handled while it is in flight, and
    a DETECTION line then arrives that carries the client id generated for
    it, a status and a confidence text with no colon, and any message, the
    rendered list is that message and nothing else, the comparison of
    [updateDetectionUI] logs a match, and the Active Upload Client Id is
    still the generated one. *)
Theorem X17_first_result_after_upload (p p' : page) (f : file) (x : random)
    (es1 es2 : list event) (code : nat) (r : reply)
    (status confidence message : string) :
  forallb socket_event es1 = true ->
  forallb socket_event es2 = true ->
  truthy (reply_error r) = false ->
  has_no ":" status = true ->
  has_no ":" confidence = true ->
  run p (Click (Some f) x :: es1 ++ Fetched (FetchResolves code) :: es2 ++
           [Parsed (JsonResolves r);
            Message ("DETECTION:" ++ generateClientId x ++ ":" ++ status ++ ":"
                     ++ confidence ++ ":" ++ message)])%list = Some p' ->
  resultsList (dom p') = [{| className := "result-item"; innerHTML := message |}] /\
  In (Stamped "UI_FUNCTION" [VStr "Client ID matches - processing updateDetectionUI"])
     (console (dom p')) /\
  currentClientId (dom p') = Some (generateClientId x).
Proof.
  intros H1 H2 Hr Hs Hf H.
  set (data := "DETECTION:" ++ generateClientId x ++ ":" ++ status ++ ":"
               ++ confidence ++ ":" ++ message) in *.
  assert (L : (Click (Some f) x :: es1 ++ Fetched (FetchResolves code) :: es2 ++
                 [Parsed (JsonResolves r); Message data])%list
              = ((Click (Some f) x :: es1 ++ Fetched (FetchResolves code) :: es2 ++
                    [Parsed (JsonResolves r)]) ++ [Message data])%list).
  { cbn [app]. f_equal. rewrite <- app_assoc. cbn [app]. f_equal. f_equal.
    now rewrite <- app_assoc. }
  rewrite L, run_app in H.
  destruct (run p (Click (Some f) x :: es1 ++ Fetched (FetchResolves code)
                     :: es2 ++ [Parsed (JsonResolves r)])%list) as [q|] eqn:E;
    [|discriminate].
  destruct (upload_success p q f x es1 es2 code r H1 H2 E Hr) as (Hid & Hl & _).
  cbn [run] in H.
  change (step q (Message data))
    with (Some {| dom := onmessage data (dom q); pending := pending q |}) in H.
  injection H as <-. cbn [dom].
  destruct (composed_detection (generateClientId x) status confidence message
              (dom q) (client_id_has_no_colon x) Hs Hf) as (st1 & Lg & Eq).
  fold data in Eq. rewrite Eq.
  destruct (only_logs_fields _ _ Lg) as (_ & Hc1 & Hl1 & _).
  pose proof (updateDetectionUI_only_logs (generateClientId x) status
                (Num.parseFloat confidence) message st1) as Lu.
  destruct (only_logs_fields _ _ Lu) as (_ & Hc2 & Hl2 & _).
  split; [|split].
  - rewrite addDetectionResult_list, Hl2, Hl1, Hl. reflexivity.
  - apply addDetectionResult_console, updateDetectionUI_matches.
    now rewrite Hc1.
  - destruct (addDetectionResult_ids (generateClientId x) status
                (Num.parseFloat confidence) message
                (updateDetectionUI (generateClientId x) status
                   (Num.parseFloat confidence) message st1)) as [_ ->].
    now rewrite Hc2, Hc1.
Qed.

Lemma X17_first_result_after_upload_witness :
  exists p',
    run Example.idle
      [Click (Some Example.report) Example.x;
       Message "PAGE_COUNT:client_4fzyo82m:2";
       Fetched (FetchResolves 200);
       Parsed (JsonResolves Example.accepted);
       Message "DETECTION:client_4fzyo82m:done:0.97:Looks valid: 2 pages"]
    = Some p' /\
    resultsList (dom p')
    = [{| className := "result-item"; innerHTML := "Looks valid: 2 pages" |}].
Proof.
  eexists. split; [reflexivity|].
  eapply (X17_first_result_after_upload Example.idle _ Example.report Example.x
            [Message "PAGE_COUNT:client_4fzyo82m:2"] [] 200 Example.accepted
            "done" "0.97" "Looks valid: 2 pages");
    reflexivity.
Defined.

(** ** What the comparison and the page events put on the console *)

(** X18. [updateDetectionUI] changes nothing but the console, whatever its
    verdict, and its verdict is the last line it logs: a match exactly when
    the Active Upload Client Id is the string it is given, and a mismatch
    otherwise, always so while no upload has succeeded and the id is [null]. *)
Theorem X18_comparison_only_logs_its_verdict (clientId status : string)
    (confidence : number) (message : string) (st : state) :
  let st' := updateDetectionUI clientId status confidence message st in
  only_logs st st' /\
  (currentClientId st = Some clientId ->
   last (console st') (Log [])
   = Stamped "UI_FUNCTION" [VStr "Client ID matches - processing updateDetectionUI"]) /\
  (currentClientId st <> Some clientId ->
   last (console st') (Log [])
   = Stamped "UI_FUNCTION" [VStr "Client ID mismatch - skipping updateDetectionUI"]).
Proof.
  cbv zeta. split; [apply updateDetectionUI_only_logs|].
  unfold updateDetectionUI. cbv zeta. destruct st as [i cur l b c a r].
  fields. split; intros H.
  - rewrite H, String.eqb_refl. cbn [negb]. fields. now rewrite last_last.
  - destruct cur as [cur|].
    + destruct (String.eqb_spec clientId cur) as [->|_]; [easy|].
      cbn [negb]. fields. now rewrite last_last.
    + fields. now rewrite last_last.
Qed.

Lemma X18_comparison_only_logs_its_verdict_witness :
  last (console (updateDetectionUI "abc123" "done" NaN "m" Example.st)) (Log [])
  = Stamped "UI_FUNCTION" [VStr "Client ID matches - processing updateDetectionUI"] /\
  last (console (updateDetectionUI "abc123" "done" NaN "m" (loaded [] Example.ready)))
       (Log [])
  = Stamped "UI_FUNCTION" [VStr "Client ID mismatch - skipping updateDetectionUI"].
Proof.
  split.
  - apply (X18_comparison_only_logs_its_verdict "abc123" "done" NaN "m" Example.st).
    reflexivity.
  - apply (X18_comparison_only_logs_its_verdict "abc123" "done" NaN "m"
             (loaded [] Example.ready)).
    discriminate.
Defined.

(** X19. What a PAGE_COUNT line puts on the console: the line received,
    the announcement, and, when the line has at least two colons, its client
    id and its page count as [parseInt] reads field 2, [NaN] when that is not
    a number; with one colon only the data lines are left out. Fields after
    the page count are ignored. *)
Theorem X19_page_count_console (data : string) (st : state) :
  Js.startsWith data "PAGE_COUNT:" = true ->
  let parts := Js.split data ":" in
  console (onmessage data st) =
  (console st ++
   [Log [VStr "WebSocket message received:"; VStr data];
    Stamped "WEBSOCKET" [VStr "Received: "; VStr data];
    Log [VStr "Processing PAGE_COUNT message"];
    Stamped "PAGE_COUNT" [VStr "Processing page count message"]] ++
   (if (2 <=? count ":" data)%nat
    then [Log [VStr "Page count data:";
               VObj [("clientId", VStr (nth 1 parts ""));
                     ("pages", VNum (Num.parseInt (nth 2 parts "")));
                     ("currentClientId", VId (currentClientId st))]];
          Stamped "PAGE_COUNT" [VStr "Client: "; VStr (nth 1 parts "");
                                VStr ", Pages: ";
                                VNum (Num.parseInt (nth 2 parts ""))]]
    else []))%list.
Proof.
  intros H. cbv zeta. destruct (page_count_is_no_other _ H) as [H1 H2].
  unfold onmessage. rewrite H1, H2, H. cbv zeta.
  rewrite (length_split_char ":" data).
  change (3 <=? S (count ":" data))%nat with (2 <=? count ":" data)%nat.
  destruct (2 <=? count ":" data)%nat; destruct st; fields;
    now rewrite <- !app_assoc.
Qed.

Lemma X19_page_count_console_witness :
  console (onmessage "PAGE_COUNT:abc123:many:more" Example.st) =
  (console Example.st ++
   [Log [VStr "WebSocket message received:"; VStr "PAGE_COUNT:abc123:many:more"];
    Stamped "WEBSOCKET" [VStr "Received: "; VStr "PAGE_COUNT:abc123:many:more"];
    Log [VStr "Processing PAGE_COUNT message"];
    Stamped "PAGE_COUNT" [VStr "Processing page count message"];
    Log [VStr "Page count data:";
         VObj [("clientId", VStr "abc123"); ("pages", VNum NaN);
               ("currentClientId", VStr "abc123")]];
    Stamped "PAGE_COUNT" [VStr "Client: "; VStr "abc123"; VStr ", Pages: ";
                          VNum NaN]])%list.
Proof.
  apply (X19_page_count_console "PAGE_COUNT:abc123:many:more" Example.st eq_refl).
Defined.

(** X20. What a PAGE_RESULT line puts on the console: the line received,
    the announcement, and, when the line has at least six colons, the page
    number, the orientation, the aspect ratio, the width and the height,
    the numbers as [parseInt] and [parseFloat] read fields 2, 4, 5 and 6 and
    [NaN] where they cannot; with fewer colons the data lines are left out. *)
Theorem X20_page_result_console (data : string) (st : state) :
  Js.startsWith data "PAGE_RESULT:" = true ->
  let parts := Js.split data ":" in
  console (onmessage data st) =
  (console st ++
   [Log [VStr "WebSocket message received:"; VStr data];
    Stamped "WEBSOCKET" [VStr "Received: "; VStr data];
    Log [VStr "Processing PAGE_RESULT message"];
    Stamped "PAGE_RESULT" [VStr "Processing page result message"]] ++
   (if (6 <=? count ":" data)%nat
    then [Log [VStr "Page result data:";
               VObj [("clientId", VStr (nth 1 parts ""));
                     ("pageNum", VNum (Num.parseInt (nth 2 parts "")));
                     ("orientation", VStr (nth 3 parts ""));
                     ("aspectRatio", VNum (Num.parseFloat (nth 4 parts "")));
                     ("width", VNum (Num.parseInt (nth 5 parts "")));
                     ("height", VNum (Num.parseInt (nth 6 parts "")))]];
          Stamped "PAGE_RESULT"
            [VStr "Page "; VNum (Num.parseInt (nth 2 parts "")); VStr ": ";
             VStr (nth 3 parts ""); VStr " (";
             VNum (Num.parseInt (nth 5 parts "")); VStr "x";
             VNum (Num.parseInt (nth 6 parts "")); VStr ")"]]
    else []))%list.
Proof.
  intros H. cbv zeta. destruct (page_result_is_no_other _ H) as (H1 & H2 & H3).
  unfold onmessage. rewrite H1, H2, H3, H. cbv zeta.
  rewrite (length_split_char ":" data).
  change (7 <=? S (count ":" data))%nat with (6 <=? count ":" data)%nat.
  destruct (6 <=? count ":" data)%nat; destruct st; fields;
    now rewrite <- !app_assoc.
Qed.

Lemma X20_page_result_console_witness :
  In (Stamped "PAGE_RESULT"
        [VStr "Page "; VNum (Numeral "1"); VStr ": "; VStr "portrait"; VStr " (";
         VNum (Numeral "600"); VStr "x"; VNum (Numeral "800"); VStr ")"])
     (console (onmessage "PAGE_RESULT:abc123:1:portrait:0.77:600:800px" Example.st)).
Proof.
  rewrite (X20_page_result_console
             "PAGE_RESULT:abc123:1:portrait:0.77:600:800px" Example.st eq_refl).
  apply in_or_app. right. apply in_or_app. right. right. now left.
Defined.

(** X21. What the error and close handlers log when the event says
    nothing: a close whose reason is the empty string is logged with
    [No reason given], and an error event with no message, or an empty one,
    with [Unknown error]; a reason or a message that is not empty is logged
    as it is. Neither handler changes anything but the console. *)
Theorem X21_falsy_texts_replaced (code : nat) (reason : string)
    (message : option string) (st : state) :
  onclose code reason st =
  set_console
    (console st ++
     [Log [VStr " WebSocket connection closed:"; VInt code; VStr reason];
      Stamped "CONNECTION"
        [VStr "WebSocket closed ("; VInt code; VStr "): ";
         VStr (if (reason =? "")%string then "No reason given" else reason)]])%list st /\
  onerror message st =
  set_console
    (console st ++
     [LogError [VStr "WebSocket error:"; VObj [("message", VId message)]];
      Stamped "ERROR"
        [VStr "WebSocket error: ";
         VStr (match message with
               | Some m => if (m =? "")%string then "Unknown error" else m
               | None => "Unknown error"
               end)]])%list st.
Proof.
  split.
  - unfold onclose. destruct st. fields. rewrite <- app_assoc.
    now destruct reason.
  - unfold onerror. destruct st. fields. rewrite <- app_assoc.
    destruct message as [[|c m]|]; reflexivity.
Qed.
